(** * Google Search MCP server: credential resolution and search dispatch

    A shallow embedding of [elos_google_search_mcp/server.py].

    The module talks to four outside parties: the process environment
    ([os.getenv]), the file system ([os.path.exists]), the Google
    authentication libraries ([from_service_account_file], [default]) and
    the Custom Search client ([build], [service.list(...).execute()]).
    They are gathered in a record [World]; every function of the module is
    a function of the world it runs in.  Python values are an inductive
    type [pyval], exceptions an explicit [outcome], and the two observable
    effects of the module (log lines and remote search calls) are recorded
    in an event trace. *)

From stdpp Require Import gmap strings list fin_maps.
From Stdlib Require Import ZArith.

Set Warnings "-register-all".

Local Open Scope string_scope.
Local Open Scope Z_scope.

(** ** Python values *)

(** Opaque handle of a [google.auth] credentials object. *)
Inductive Credentials := CredentialsObject (handle : N).

(** Opaque handle of the client returned by [build]. *)
Inductive Service := ServiceObject (handle : N).

(** The values that flow through the module: parsed JSON (the float
    payload is its IEEE-754 bit pattern, the module never computes with
    it), plus the credentials object returned by the resolver. *)
Inductive pyval :=
| PNone
| PBool (b : bool)
| PInt (n : Z)
| PFloat (bits : Z)
| PStr (s : string)
| PList (l : list pyval)
| PDict (d : gmap string pyval)
| PCredentials (c : Credentials).

(** [bool(v)]: Python truthiness. *)
Definition truthy (v : pyval) : bool :=
  match v with
  | PNone => false
  | PBool b => b
  | PInt n => negb (n =? 0)
  | PFloat bits => negb ((bits =? 0) || (bits =? 2 ^ 63))
  | PStr s => negb (String.eqb s "")
  | PList l => match l with [] => false | _ => true end
  | PDict d => negb (bool_decide (d = ∅))
  | PCredentials _ => true
  end.

(** [isinstance(v, str)]. *)
Definition isinstance_str (v : pyval) : bool :=
  match v with PStr _ => true | _ => false end.

(** [type(v).__name__]. *)
Definition type_name (v : pyval) : string :=
  match v with
  | PNone => "NoneType"
  | PBool _ => "bool"
  | PInt _ => "int"
  | PFloat _ => "float"
  | PStr _ => "str"
  | PList _ => "list"
  | PDict _ => "dict"
  | PCredentials _ => "Credentials"
  end.

(** A dict display [{k1: v1, ..., kn: vn}] with distinct keys. *)
Definition py_dict (items : list (string * pyval)) : pyval :=
  PDict (list_to_map items).

(** ** Exceptions and outcomes *)

(** The classes of [Exception] the module distinguishes or provokes.
    [OtherException name] stands for any further subclass of [Exception]
    that derives from none of the four named ones.  Interrupts that derive
    from [BaseException] only (KeyboardInterrupt, SystemExit) are
    process-level signals and are not modelled. *)
Inductive exn_class :=
| HttpError
| DefaultCredentialsError
| AttributeError
| TypeError
| OtherException (name : string).

(** An exception object: its class and [str(e)]. *)
Record exn := Exn { exn_cls : exn_class; exn_str : string }.

Definition is_HttpError (e : exn) : bool :=
  match exn_cls e with HttpError => true | _ => false end.

Definition is_DefaultCredentialsError (e : exn) : bool :=
  match exn_cls e with DefaultCredentialsError => true | _ => false end.

Inductive outcome (A : Type) :=
| Return (a : A)
| Raise (e : exn).
Arguments Return {A} a.
Arguments Raise {A} e.

(** ** Observable effects *)

(** Keyword arguments of [service.list(...)]; [searchType] is [None] when
    the keyword is not passed. *)
Record Request := {
  q : string;
  cx : string;
  num : Z;
  searchType : option string
}.

Inductive event :=
| LogWarning (msg : string)
| LogError (msg : string)
| RemoteCall (service : Service) (request : Request).

(** ** The world the module runs in *)

Record World := {
  (** [os.environ] *)
  environ : gmap string string;
  (** whether a non-empty path names an existing file *)
  fs_exists : string -> bool;
  (** [service_account.Credentials.from_service_account_file(path)] *)
  from_service_account_file : string -> outcome Credentials;
  (** [google.auth.default()]: the pair [(credentials, project)] *)
  auth_default : outcome (Credentials * option string);
  (** [build(serviceName, version, developerKey=...)] *)
  build : string -> string -> pyval -> outcome Service;
  (** [service.list(...).execute()] *)
  list_execute : Service -> Request -> outcome pyval
}.

(** [os.getenv(name)]: the value, or [None] when the variable is unset. *)
Definition os_getenv (w : World) (name : string) : option string :=
  environ w !! name.

(** An [Optional[str]] as a Python value. *)
Definition py_opt_str (v : option string) : pyval :=
  match v with
  | Some s => PStr s
  | None => PNone
  end.

(** [os.path.exists(path)]: [os.stat] fails on the empty path, which
    therefore never exists. *)
Definition os_path_exists (w : World) (path : string) : bool :=
  if String.eqb path "" then false else fs_exists w path.

(** ** Computations: an event trace and an outcome *)

Definition M (A : Type) : Type := (list event * outcome A)%type.

Definition trace {A} (m : M A) : list event := fst m.
Definition result {A} (m : M A) : outcome A := snd m.

Definition ret {A} (a : A) : M A := ([], Return a).
Definition raise {A} (e : exn) : M A := ([], Raise e).
Definition emit (ev : event) : M unit := ([ev], Return tt).
Definition lift {A} (o : outcome A) : M A := ([], o).

Definition bind {A B} (m : M A) (k : A -> M B) : M B :=
  match m with
  | (t, Return a) => let (t', o) := k a in ((t ++ t')%list, o)
  | (t, Raise e) => (t, Raise e)
  end.

(** [try: m  except ... as e: handler e]; a handler that does not match
    the exception raises it again. *)
Definition try_except {A} (m : M A) (handler : exn -> M A) : M A :=
  match m with
  | (t, Return a) => (t, Return a)
  | (t, Raise e) => let (t', o) := handler e in ((t ++ t')%list, o)
  end.

Notation "x <- m ;; k" := (bind m (fun x => k))
  (at level 100, m at next level, right associativity).
Notation "m ;;; k" := (bind m (fun _ => k))
  (at level 100, right associativity).

(** The remote calls recorded in a trace, in order. *)
Definition remote_calls (t : list event) : list Request :=
  omap (fun ev => match ev with RemoteCall _ r => Some r | _ => None end) t.

Definition logger_warning (msg : string) : M unit := emit (LogWarning msg).
Definition logger_error (msg : string) : M unit := emit (LogError msg).

(** [service.list(...).execute()], recorded in the trace. *)
Definition service_list_execute (w : World) (service : Service)
    (request : Request) : M pyval :=
  emit (RemoteCall service request) ;;; lift (list_execute w service request).

(** [d.get(key, default)]. *)
Definition py_get (d : pyval) (key : string) (default : pyval) : M pyval :=
  match d with
  | PDict m => ret (match m !! key with Some v => v | None => default end)
  | _ => raise (Exn AttributeError
                  ("'" +:+ type_name d +:+ "' object has no attribute 'get'"))
  end.

(** The elements [for item in v] ranges over.  Iterating a dict yields
    its keys and iterating a string its characters, all of them strings. *)
Definition py_iter (v : pyval) : M (list pyval) :=
  match v with
  | PList l => ret l
  | PDict m => ret (PStr <$> elements (dom m))
  | PStr s => ret ((fun c => PStr (String c EmptyString)) <$> String.list_ascii_of_string s)
  | _ => raise (Exn TypeError ("'" +:+ type_name v +:+ "' object is not iterable"))
  end.

(** A list comprehension [[f item for item in items]], left to right. *)
Fixpoint comprehension (f : pyval -> M pyval) (items : list pyval)
    : M (list pyval) :=
  match items with
  | [] => ret []
  | item :: rest =>
      r <- f item ;;
      rs <- comprehension f rest ;;
      ret (r :: rs)
  end.

(** ** The module *)

Definition error_dict (msg : string) : pyval := py_dict [("error", PStr msg)].

Arguments py_dict : simpl never.
Arguments error_dict : simpl never.

(** Lines 30-41 of [get_google_credentials]: the API key, then the
    platform default credentials. *)
Definition api_key_or_default (w : World) : M pyval :=
  let api_key := os_getenv w "GOOGLE_API_KEY" in
  if truthy (py_opt_str api_key) then ret (py_opt_str api_key)
  else
    try_except
      (cp <- lift (auth_default w) ;;
       let '(credentials, project) := cp in
       ret (PCredentials credentials))
      (fun e =>
         if is_DefaultCredentialsError e then
           logger_error "No Google credentials found. Please set GOOGLE_APPLICATION_CREDENTIALS or GOOGLE_API_KEY" ;;;
           ret PNone
         else raise e).

(** [get_google_credentials()] *)
Definition get_google_credentials (w : World) : M pyval :=
  let credentials_path := os_getenv w "GOOGLE_APPLICATION_CREDENTIALS" in
  match credentials_path with
  | Some path =>
      if truthy (PStr path) && os_path_exists w path then
        match from_service_account_file w path with
        | Return credentials => ret (PCredentials credentials)
        | Raise e =>
            logger_warning ("Failed to load service account from " +:+ path
                            +:+ ": " +:+ exn_str e) ;;;
            api_key_or_default w
        end
      else api_key_or_default w
  | None => api_key_or_default w
  end.

(** The two [except] clauses shared by the three search tools. *)
Definition search_handlers (e : exn) : M pyval :=
  if is_HttpError e then
    logger_error ("Google API error: " +:+ exn_str e) ;;;
    ret (error_dict ("Google API error: " +:+ exn_str e))
  else
    logger_error ("Unexpected error: " +:+ exn_str e) ;;;
    ret (error_dict ("Unexpected error: " +:+ exn_str e)).

(** The [try] block of [google_search] (lines 56-86). *)
Definition google_search_body (w : World) (query : string) (num_results : Z)
    : M pyval :=
  credentials <- get_google_credentials w ;;
  if negb (truthy credentials) then
    ret (error_dict "No Google credentials available")
  else if isinstance_str credentials then
    service <- lift (build w "customsearch" "v1" credentials) ;;
    let not_set :=
      ret (error_dict "GOOGLE_CSE_ID environment variable not set for Custom Search API") in
    match os_getenv w "GOOGLE_CSE_ID" with
    | Some search_engine_id =>
        if truthy (PStr search_engine_id) then
          results <- service_list_execute w service
                       {| q := query; cx := search_engine_id;
                          num := Z.min num_results 10; searchType := None |} ;;
          items <- py_get results "items" (PList []) ;;
          elems <- py_iter items ;;
          rs <- comprehension (fun item =>
                  title <- py_get item "title" (PStr "") ;;
                  link <- py_get item "link" (PStr "") ;;
                  snippet <- py_get item "snippet" (PStr "") ;;
                  ret (py_dict [("title", title); ("link", link);
                                ("snippet", snippet);
                                ("source", PStr "Google Custom Search")]))
                elems ;;
          ret (PList rs)
        else not_set
    | None => not_set
    end
  else
    ret (error_dict "Service account authentication not yet implemented for search API").

(** [google_search(query, num_results)] *)
Definition google_search (w : World) (query : string) (num_results : Z)
    : M pyval :=
  try_except (google_search_body w query num_results) search_handlers.

(** The [try] block of [google_search_web] (lines 108-136). *)
Definition google_search_web_body (w : World) (query : string)
    (num_results : Z) : M pyval :=
  credentials <- get_google_credentials w ;;
  if negb (truthy credentials) then
    ret (error_dict "No Google credentials available")
  else if isinstance_str credentials then
    service <- lift (build w "customsearch" "v1" credentials) ;;
    let not_set := ret (error_dict "GOOGLE_CSE_ID environment variable not set") in
    match os_getenv w "GOOGLE_CSE_ID" with
    | Some search_engine_id =>
        if truthy (PStr search_engine_id) then
          results <- service_list_execute w service
                       {| q := query; cx := search_engine_id;
                          num := Z.min num_results 5;
                          searchType := Some "web" |} ;;
          items <- py_get results "items" (PList []) ;;
          elems <- py_iter items ;;
          rs <- comprehension (fun item =>
                  title <- py_get item "title" (PStr "") ;;
                  link <- py_get item "link" (PStr "") ;;
                  snippet <- py_get item "snippet" (PStr "") ;;
                  ret (py_dict [("title", title); ("link", link);
                                ("snippet", snippet);
                                ("source", PStr "Google Web Search")]))
                elems ;;
          ret (PList rs)
        else not_set
    | None => not_set
    end
  else
    ret (error_dict "Service account authentication not yet implemented").

(** [google_search_web(query, num_results)] *)
Definition google_search_web (w : World) (query : string) (num_results : Z)
    : M pyval :=
  try_except (google_search_web_body w query num_results) search_handlers.

(** The [try] block of [google_search_images] (lines 158-186). *)
Definition google_search_images_body (w : World) (query : string)
    (num_results : Z) : M pyval :=
  credentials <- get_google_credentials w ;;
  if negb (truthy credentials) then
    ret (error_dict "No Google credentials available")
  else if isinstance_str credentials then
    service <- lift (build w "customsearch" "v1" credentials) ;;
    let not_set := ret (error_dict "GOOGLE_CSE_ID environment variable not set") in
    match os_getenv w "GOOGLE_CSE_ID" with
    | Some search_engine_id =>
        if truthy (PStr search_engine_id) then
          results <- service_list_execute w service
                       {| q := query; cx := search_engine_id;
                          num := Z.min num_results 5;
                          searchType := Some "image" |} ;;
          items <- py_get results "items" (PList []) ;;
          elems <- py_iter items ;;
          rs <- comprehension (fun item =>
                  title <- py_get item "title" (PStr "") ;;
                  link <- py_get item "link" (PStr "") ;;
                  image <- py_get item "image" (PDict ∅) ;;
                  ret (py_dict [("title", title); ("link", link);
                                ("image", image);
                                ("source", PStr "Google Image Search")]))
                elems ;;
          ret (PList rs)
        else not_set
    | None => not_set
    end
  else
    ret (error_dict "Service account authentication not yet implemented").

(** [google_search_images(query, num_results)] *)
Definition google_search_images (w : World) (query : string)
    (num_results : Z) : M pyval :=
  try_except (google_search_images_body w query num_results) search_handlers.

(** [get_search_health()] *)
Definition get_search_health (w : World) : M pyval :=
  credentials <- get_google_credentials w ;;
  let search_engine_id := os_getenv w "GOOGLE_CSE_ID" in
  ret (py_dict
    [("status", PStr (if truthy credentials then "healthy" else "unhealthy"));
     ("credentials_available", PBool (truthy credentials));
     ("search_engine_id_set", PBool (truthy (py_opt_str search_engine_id)));
     ("environment_variables", py_dict
        [("GOOGLE_APPLICATION_CREDENTIALS",
            py_opt_str (os_getenv w "GOOGLE_APPLICATION_CREDENTIALS"));
         ("GOOGLE_API_KEY",
            if truthy (py_opt_str (os_getenv w "GOOGLE_API_KEY"))
            then PStr "***" else PNone);
         ("GOOGLE_CSE_ID", py_opt_str search_engine_id)])]).

(** ** Conditions on the world *)

(** Step 1 succeeds: the path variable is set, the file exists and the
    service-account credential [c] loads from it. *)
Definition service_account_available (w : World) (c : Credentials) : Prop :=
  exists path,
    os_getenv w "GOOGLE_APPLICATION_CREDENTIALS" = Some path /\
    os_path_exists w path = true /\
    from_service_account_file w path = Return c.

(** The API key variable is set and non-empty. *)
Definition api_key_available (w : World) (key : string) : Prop :=
  os_getenv w "GOOGLE_API_KEY" = Some key /\ key <> "".

(** Steps 2 and 3 of the resolution order, in the words of the
    specification: the API key when it is set and non-empty, otherwise the
    outcome of default-credential discovery. *)
Definition spec_key_then_default (w : World) (o : outcome pyval) : Prop :=
  (forall key, api_key_available w key -> o = Return (PStr key)) /\
  ((forall key, ~ api_key_available w key) ->
     (forall c project,
        auth_default w = Return (c, project) -> o = Return (PCredentials c)) /\
     (forall e,
        auth_default w = Raise e -> is_DefaultCredentialsError e = true ->
        o = Return PNone)).

(** [msg] contains [needle]. *)
Definition mentions (msg needle : string) : bool :=
  match String.index 0 needle msg with
  | Some _ => true
  | None => false
  end.

(** The search-engine identifier is set: the variable holds a non-empty
    value. *)
Definition search_engine_id_available (w : World) : Prop :=
  exists search_engine_id,
    os_getenv w "GOOGLE_CSE_ID" = Some search_engine_id /\
    search_engine_id <> "".

(** The world [w] with the API key variable set to [key]. *)
Definition with_api_key (w : World) (key : string) : World :=
  {| environ := <["GOOGLE_API_KEY" := key]> (environ w);
     fs_exists := fs_exists w;
     from_service_account_file := from_service_account_file w;
     auth_default := auth_default w;
     build := build w;
     list_execute := list_execute w |}.

(** A well-formed response of the search endpoint: a JSON object whose
    [items] member, when present, is an array of JSON objects [items];
    without the member, [items] is empty. *)
Definition well_formed_response (response : pyval)
    (items : list (gmap string pyval)) : Prop :=
  exists d,
    response = PDict d /\
    (d !! "items" = None /\ items = [] \/
     d !! "items" = Some (PList (PDict <$> items))).

(** The SearchResult of the specification for one response item: title,
    link and snippet copied from the item, the empty string where the
    item lacks the field, and the fixed source label. *)
Definition spec_search_result (source : string) (item : gmap string pyval)
    : pyval :=
  py_dict [("title", default (PStr "") (item !! "title"));
           ("link", default (PStr "") (item !! "link"));
           ("snippet", default (PStr "") (item !! "snippet"));
           ("source", PStr source)].

(** The error value of the specification for an exception caught by a
    search tool. *)
Definition spec_error_value (e : exn) : pyval :=
  error_dict ((if is_HttpError e then "Google API error: "
               else "Unexpected error: ") +:+ exn_str e).

(** A computation that leaves no trace. *)
Definition silent {A} (m : M A) : Prop := trace m = [].

(** The remote calls of a tool whose resolved credential is the API key
    [key]: none unless the client is built and the identifier is set and
    non-empty, and then exactly one. *)
Definition calls_with_key (w : World) (key : string) (request : string -> Request)
    : list Request :=
  match build w "customsearch" "v1" (PStr key), os_getenv w "GOOGLE_CSE_ID" with
  | Return service, Some search_engine_id =>
      if truthy (PStr search_engine_id) then [request search_engine_id] else []
  | _, _ => []
  end.

(** ** Example worlds *)

Module Examples.

Definition no_file (path : string) : bool := false.
Definition only_file (name path : string) : bool := String.eqb path name.
Definition load_ok (path : string) : outcome Credentials :=
  Return (CredentialsObject 1).
Definition load_fails (path : string) : outcome Credentials :=
  Raise (Exn (OtherException "ValueError") "not a service account file").
Definition no_default : outcome (Credentials * option string) :=
  Raise (Exn DefaultCredentialsError "Your default credentials were not found.").
Definition default_ok : outcome (Credentials * option string) :=
  Return (CredentialsObject 2, Some "my-project").
Definition default_broken : outcome (Credentials * option string) :=
  Raise (Exn (OtherException "TransportError") "metadata server unreachable").
Definition build_ok (name version : string) (key : pyval) : outcome Service :=
  Return (ServiceObject 0).
Definition build_fails (name version : string) (key : pyval)
    : outcome Service :=
  Raise (Exn (OtherException "UnknownApiNameOrVersion") "name: customsearch  version: v1").

Definition item1 : gmap string pyval :=
  list_to_map [("title", PStr "Rocq"); ("link", PStr "https://rocq-prover.org");
               ("snippet", PStr "The Rocq prover")].
Definition item2 : gmap string pyval :=
  list_to_map [("title", PStr "stdpp"); ("displayLink", PStr "gitlab.mpi-sws.org")].

Definition two_items (service : Service) (request : Request) : outcome pyval :=
  Return (py_dict [("kind", PStr "customsearch#search");
                   ("items", PList [PDict item1; PDict item2])]).
Definition no_items (service : Service) (request : Request) : outcome pyval :=
  Return (py_dict [("kind", PStr "customsearch#search")]).
Definition items_null (service : Service) (request : Request) : outcome pyval :=
  Return (py_dict [("items", PNone)]).
Definition forbidden (service : Service) (request : Request) : outcome pyval :=
  Raise (Exn HttpError "<HttpError 403 Forbidden>").

Definition world (env : list (string * string)) (files : string -> bool)
    (load : string -> outcome Credentials)
    (dflt : outcome (Credentials * option string))
    (bld : string -> string -> pyval -> outcome Service)
    (exec : Service -> Request -> outcome pyval) : World :=
  {| environ := list_to_map env; fs_exists := files;
     from_service_account_file := load; auth_default := dflt;
     build := bld; list_execute := exec |}.

(** An API key, and a client constructor that fails. *)
Definition build_broken : World :=
  world [("GOOGLE_API_KEY", "secret")] no_file load_fails no_default
        build_fails two_items.
(** The endpoint answers without an [items] member. *)
Definition empty_answer : World :=
  world [("GOOGLE_API_KEY", "secret"); ("GOOGLE_CSE_ID", "engine")]
        no_file load_fails no_default build_ok no_items.
(** The endpoint answers with [items: null]. *)
Definition null_answer : World :=
  world [("GOOGLE_API_KEY", "secret"); ("GOOGLE_CSE_ID", "engine")]
        no_file load_fails no_default build_ok items_null.
(** The endpoint refuses the request. *)
Definition refused : World :=
  world [("GOOGLE_API_KEY", "secret"); ("GOOGLE_CSE_ID", "engine")]
        no_file load_fails no_default build_ok forbidden.
(** An API key and an identifier set to the empty string. *)
Definition empty_cse : World :=
  world [("GOOGLE_API_KEY", "secret"); ("GOOGLE_CSE_ID", "")]
        no_file load_fails no_default build_ok two_items.
(** Nothing configured. *)
Definition bare : World :=
  world [] no_file load_fails no_default build_ok two_items.
(** Only the API key. *)
Definition key_only : World :=
  world [("GOOGLE_API_KEY", "secret")] no_file load_fails no_default
        build_ok two_items.
(** API key and search-engine identifier. *)
Definition key_and_cse : World :=
  world [("GOOGLE_API_KEY", "secret"); ("GOOGLE_CSE_ID", "engine")]
        no_file load_fails no_default build_ok two_items.
(** A loadable service-account file next to an API key. *)
Definition service_account : World :=
  world [("GOOGLE_APPLICATION_CREDENTIALS", "/etc/sa.json");
         ("GOOGLE_API_KEY", "secret"); ("GOOGLE_CSE_ID", "engine")]
        (only_file "/etc/sa.json") load_ok default_ok build_ok two_items.
(** A service-account file that exists but does not load. *)
Definition broken_service_account : World :=
  world [("GOOGLE_APPLICATION_CREDENTIALS", "/etc/sa.json");
         ("GOOGLE_API_KEY", "secret")]
        (only_file "/etc/sa.json") load_fails default_ok build_ok two_items.
(** Only platform default credentials. *)
Definition default_only : World :=
  world [("GOOGLE_CSE_ID", "engine")] no_file load_fails default_ok
        build_ok two_items.
(** Default-credential discovery fails with another error. *)
Definition discovery_broken : World :=
  world [("GOOGLE_APPLICATION_CREDENTIALS", "/etc/sa.json")]
        no_file load_fails default_broken build_ok two_items.

End Examples.


(** ** Further conditions and example worlds *)

(** The image result of one response item: title and link copied from the
    item (the empty string where missing), its [image] member (the empty
    dict where missing) and the fixed source label. *)
Definition spec_image_result (item : gmap string pyval) : pyval :=
  py_dict [("title", default (PStr "") (item !! "title"));
           ("link", default (PStr "") (item !! "link"));
           ("image", default (PDict ∅) (item !! "image"));
           ("source", PStr "Google Image Search")].

(** The world [w] with another client constructor and another endpoint. *)
Definition with_client (w : World)
    (bld : string -> string -> pyval -> outcome Service)
    (exec : Service -> Request -> outcome pyval) : World :=
  {| environ := environ w;
     fs_exists := fs_exists w;
     from_service_account_file := from_service_account_file w;
     auth_default := auth_default w;
     build := bld;
     list_execute := exec |}.

(** The message the resolver logs when no credential is found. *)
Definition no_credentials_message : string :=
  "No Google credentials found. Please set GOOGLE_APPLICATION_CREDENTIALS or GOOGLE_API_KEY".

(** A result entry: a dict with exactly the keys [keys], whose [source]
    is the label [source]. *)
Definition result_entry (keys : gset string) (source : string) (v : pyval)
    : Prop :=
  exists d, v = PDict d /\ dom d = keys /\ d !! "source" = Some (PStr source).

(** What a search tool hands to its caller: an error dict, or a list of
    result entries. *)
Definition tool_output (keys : gset string) (source : string) (v : pyval)
    : Prop :=
  (exists msg, v = error_dict msg) \/
  (exists entries, v = PList entries /\ Forall (result_entry keys source) entries).

Definition is_dict (v : pyval) : bool :=
  match v with PDict _ => true | _ => false end.

Module Cases.

Definition picture : gmap string pyval :=
  list_to_map [("title", PStr "Rooster"); ("link", PStr "https://example.org/r.png");
               ("image", py_dict [("width", PInt 640); ("height", PInt 480)])].
Definition plain : gmap string pyval :=
  list_to_map [("link", PStr "https://example.org/p.png"); ("snippet", PStr "unused")].

Definition pictures (service : Service) (request : Request) : outcome pyval :=
  Return (py_dict [("items", PList [PDict picture; PDict plain])]).

(** Three items, whatever the count asked for. *)
Definition three_items (service : Service) (request : Request) : outcome pyval :=
  Return (py_dict [("items", PList [PDict Examples.item1; PDict Examples.item2;
                                    PDict Examples.item1])]).

(** A list of items whose second element is a string. *)
Definition stray_item (service : Service) (request : Request) : outcome pyval :=
  Return (py_dict [("items", PList [PDict Examples.item1; PStr "oops";
                                    PDict Examples.item2])]).

Definition image_world : World :=
  Examples.world [("GOOGLE_API_KEY", "secret"); ("GOOGLE_CSE_ID", "engine")]
    Examples.no_file Examples.load_fails Examples.no_default
    Examples.build_ok pictures.
Definition generous : World :=
  Examples.world [("GOOGLE_API_KEY", "secret"); ("GOOGLE_CSE_ID", "engine")]
    Examples.no_file Examples.load_fails Examples.no_default
    Examples.build_ok three_items.
Definition stray : World :=
  Examples.world [("GOOGLE_API_KEY", "secret"); ("GOOGLE_CSE_ID", "engine")]
    Examples.no_file Examples.load_fails Examples.no_default
    Examples.build_ok stray_item.
(** A missing service-account file, an empty API key, no default. *)
Definition empty_key : World :=
  Examples.world [("GOOGLE_APPLICATION_CREDENTIALS", "/etc/missing.json");
                  ("GOOGLE_API_KEY", "")]
    Examples.no_file Examples.load_ok Examples.no_default
    Examples.build_ok Examples.two_items.
(** A broken service-account file and nothing else. *)
Definition broken_and_bare : World :=
  Examples.world [("GOOGLE_APPLICATION_CREDENTIALS", "/etc/sa.json")]
    (Examples.only_file "/etc/sa.json") Examples.load_fails
    Examples.no_default Examples.build_ok Examples.two_items.

(** The endpoint cannot be reached: a transport failure of the HTTP
    layer, which is not an [HttpError]. *)
Definition server_not_found (service : Service) (request : Request)
    : outcome pyval :=
  Raise (Exn (OtherException "ServerNotFoundError")
             "Unable to find the server at www.googleapis.com").
Definition unreachable : World :=
  Examples.world [("GOOGLE_API_KEY", "secret"); ("GOOGLE_CSE_ID", "engine")]
    Examples.no_file Examples.load_fails Examples.no_default
    Examples.build_ok server_not_found.
(** A constructor that knows the customsearch v1 client only. *)
Definition picky_build (name version : string) (key : pyval)
    : outcome Service :=
  if String.eqb name "customsearch" && String.eqb version "v1"
  then Return (ServiceObject 0)
  else Raise (Exn (OtherException "UnknownApiNameOrVersion") name).

End Cases.

(** A remote call that the configuration accounts for: it carries the
    caller's query and the configured search-engine identifier, and the
    resolved credential is the API key of the environment. *)
Definition justified_call (w : World) (query : string) (r : Request) : Prop :=
  q r = query /\
  os_getenv w "GOOGLE_CSE_ID" = Some (cx r) /\ cx r <> "" /\
  exists key,
    result (get_google_credentials w) = Return (PStr key) /\
    os_getenv w "GOOGLE_API_KEY" = Some key.

(** The text a search tool logs and returns for a caught exception. *)
Definition error_text (e : exn) : string :=
  (if is_HttpError e then "Google API error: " else "Unexpected error: ")
  +:+ exn_str e.

(** The warning logged when the service-account file fails to load. *)
Definition load_warning (path : string) (e : exn) : string :=
  "Failed to load service account from " +:+ path +:+ ": " +:+ exn_str e.

Definition is_call (ev : event) : Prop :=
  exists service request, ev = RemoteCall service request.

(** The values a [for] loop accepts: lists, dicts and strings. *)
Definition iterable (v : pyval) : bool :=
  match v with
  | PList _ | PDict _ | PStr _ => true
  | _ => false
  end.
(** ** Facts about computations *)

Section Computations.
Context {A B : Type}.
Implicit Types (m : M A) (k : A -> M B).

Lemma result_bind m k :
  result (bind m k) =
  match result m with
  | Return a => result (k a)
  | Raise e => Raise e
  end.
Proof.
  destruct m as [t [a|e]]; simpl; [|reflexivity].
  destruct (k a); reflexivity.
Qed.

Lemma trace_bind m k :
  trace (bind m k) =
  (trace m ++ match result m with
              | Return a => trace (k a)
              | Raise e => []
              end)%list.
Proof.
  destruct m as [t [a|e]]; simpl.
  - destruct (k a); reflexivity.
  - symmetry; apply app_nil_r.
Qed.

Lemma result_try_except (m : M A) (h : exn -> M A) :
  result (try_except m h) =
  match result m with
  | Return a => Return a
  | Raise e => result (h e)
  end.
Proof.
  destruct m as [t [a|e]]; simpl; [reflexivity|].
  destruct (h e); reflexivity.
Qed.

Lemma trace_try_except (m : M A) (h : exn -> M A) :
  trace (try_except m h) =
  (trace m ++ match result m with
              | Return a => []
              | Raise e => trace (h e)
              end)%list.
Proof.
  destruct m as [t [a|e]]; simpl.
  - symmetry; apply app_nil_r.
  - destruct (h e); reflexivity.
Qed.
End Computations.

Lemma remote_calls_app (t1 t2 : list event) :
  remote_calls (t1 ++ t2) = (remote_calls t1 ++ remote_calls t2)%list.
Proof. apply omap_app. Qed.

Lemma truthy_PStr (s : string) : truthy (PStr s) = true <-> s <> "".
Proof.
  simpl. destruct (String.eqb_spec s ""); simpl; split; congruence.
Qed.

(** ** The credential resolver *)

Lemma api_key_or_default_spec (w : World) :
  spec_key_then_default w (result (api_key_or_default w)).
Proof.
  unfold spec_key_then_default, api_key_available, api_key_or_default.
  cbv zeta.
  destruct (os_getenv w "GOOGLE_API_KEY") as [key|] eqn:Ek.
  - cbn [py_opt_str]. destruct (truthy (PStr key)) eqn:Et.
    + split.
      * intros key' [[= <-] _]. reflexivity.
      * intros Hno. exfalso. apply (Hno key). split; [reflexivity|].
        by apply truthy_PStr.
    + split.
      * intros key' [[= <-] Hne]. apply truthy_PStr in Hne. congruence.
      * intros _. split.
        -- intros c project ->. reflexivity.
        -- intros e -> He. cbn. rewrite He. reflexivity.
  - cbn [py_opt_str truthy]. split.
    + intros key' [[=] _].
    + intros _. split.
      * intros c project ->. reflexivity.
      * intros e -> He. cbn. rewrite He. reflexivity.
Qed.

Lemma os_path_exists_truthy (w : World) (path : string) :
  os_path_exists w path = true -> truthy (PStr path) = true.
Proof.
  unfold os_path_exists. simpl.
  destruct (String.eqb path ""); [discriminate|reflexivity].
Qed.

(** Step 1 returns the service-account credential when it loads. *)
Lemma resolver_service_account (w : World) (c : Credentials) :
  service_account_available w c ->
  result (get_google_credentials w) = Return (PCredentials c).
Proof.
  intros (path & Hpath & Hex & Hload). unfold get_google_credentials.
  rewrite Hpath, (os_path_exists_truthy _ _ Hex), Hex, Hload. reflexivity.
Qed.

(** Without a loadable service-account file the outcome is that of
    lines 30-41. *)
Lemma resolver_falls_through (w : World) :
  (forall c, ~ service_account_available w c) ->
  result (get_google_credentials w) = result (api_key_or_default w).
Proof.
  intros Hno. unfold get_google_credentials.
  destruct (os_getenv w "GOOGLE_APPLICATION_CREDENTIALS") as [path|] eqn:Ep;
    [|reflexivity].
  destruct (truthy (PStr path) && os_path_exists w path) eqn:Eg;
    [|reflexivity].
  apply andb_true_iff in Eg as [_ Hex].
  destruct (from_service_account_file w path) as [c|e] eqn:Hload.
  - exfalso. apply (Hno c). exists path. auto.
  - rewrite result_bind. reflexivity.
Qed.

Lemma load_failure_not_available (w : World) (path : string) (e : exn) :
  os_getenv w "GOOGLE_APPLICATION_CREDENTIALS" = Some path ->
  from_service_account_file w path = Raise e ->
  forall c, ~ service_account_available w c.
Proof. intros Hpath Hload c (path' & Hpath' & _ & Hload'). congruence. Qed.

(** C1: credential resolution follows the fixed priority order.  A
    service-account file that is set, exists and loads wins; otherwise a
    set and non-empty API key is returned; otherwise default-credential
    discovery decides, its credential on success and [None] on the
    "no credentials" error.  A file that exists but fails to load logs a
    warning and resolution goes on with the API key step. *)
Theorem credential_resolution_order (w : World) :
  (forall c,
     service_account_available w c ->
     result (get_google_credentials w) = Return (PCredentials c)) /\
  ((forall c, ~ service_account_available w c) ->
     spec_key_then_default w (result (get_google_credentials w))) /\
  (forall path e,
     os_getenv w "GOOGLE_APPLICATION_CREDENTIALS" = Some path ->
     os_path_exists w path = true ->
     from_service_account_file w path = Raise e ->
     spec_key_then_default w (result (get_google_credentials w)) /\
     LogWarning ("Failed to load service account from " +:+ path
                 +:+ ": " +:+ exn_str e)
       ∈ trace (get_google_credentials w)).
Proof.
  split; [|split].
  - apply resolver_service_account.
  - intros Hno. rewrite (resolver_falls_through _ Hno).
    apply api_key_or_default_spec.
  - intros path e Hpath Hex Hload. split.
    + rewrite (resolver_falls_through _
                 (load_failure_not_available _ _ _ Hpath Hload)).
      apply api_key_or_default_spec.
    + unfold get_google_credentials.
      rewrite Hpath, (os_path_exists_truthy _ _ Hex), Hex, Hload.
      cbn [andb]. rewrite trace_bind. apply elem_of_cons. by left.
Qed.

Lemma api_key_or_default_range (w : World) (v : pyval) :
  result (api_key_or_default w) = Return v ->
  v = PNone \/ (exists key, v = PStr key /\ key <> "") \/
  (exists c, v = PCredentials c).
Proof.
  unfold api_key_or_default. cbv zeta.
  destruct (os_getenv w "GOOGLE_API_KEY") as [key|]; cbn [py_opt_str].
  - destruct (truthy (PStr key)) eqn:Et.
    + intros [= <-]. right; left. exists key. split; [reflexivity|].
      by apply truthy_PStr.
    + destruct (auth_default w) as [[c project]|e]; cbn.
      * intros [= <-]. right; right. by exists c.
      * destruct (is_DefaultCredentialsError e); cbn; intros [= <-]. by left.
  - cbn [truthy]. destruct (auth_default w) as [[c project]|e]; cbn.
    + intros [= <-]. right; right. by exists c.
    + destruct (is_DefaultCredentialsError e); cbn; intros [= <-]. by left.
Qed.

(** The resolver returns [None], a non-empty string or a credentials
    object, and nothing else. *)
Lemma get_google_credentials_range (w : World) (v : pyval) :
  result (get_google_credentials w) = Return v ->
  v = PNone \/ (exists key, v = PStr key /\ key <> "") \/
  (exists c, v = PCredentials c).
Proof.
  unfold get_google_credentials.
  destruct (os_getenv w "GOOGLE_APPLICATION_CREDENTIALS") as [path|];
    [|apply api_key_or_default_range].
  destruct (truthy (PStr path) && os_path_exists w path);
    [|apply api_key_or_default_range].
  destruct (from_service_account_file w path) as [c|e].
  - intros [= <-]. right; right. by exists c.
  - rewrite result_bind. cbn. apply api_key_or_default_range.
Qed.

Lemma api_key_or_default_no_call (w : World) :
  remote_calls (trace (api_key_or_default w)) = [].
Proof.
  unfold api_key_or_default. cbv zeta.
  destruct (truthy (py_opt_str (os_getenv w "GOOGLE_API_KEY")));
    [reflexivity|].
  destruct (auth_default w) as [[c project]|e]; cbn; [reflexivity|].
  destruct (is_DefaultCredentialsError e); reflexivity.
Qed.

(** Credential resolution never issues a remote search call. *)
Lemma get_google_credentials_no_call (w : World) :
  remote_calls (trace (get_google_credentials w)) = [].
Proof.
  unfold get_google_credentials.
  destruct (os_getenv w "GOOGLE_APPLICATION_CREDENTIALS") as [path|];
    [|apply api_key_or_default_no_call].
  destruct (truthy (PStr path) && os_path_exists w path);
    [|apply api_key_or_default_no_call].
  destruct (from_service_account_file w path) as [c|e]; [reflexivity|].
  rewrite trace_bind, remote_calls_app. cbn.
  apply api_key_or_default_no_call.
Qed.

Lemma credential_resolution_order_witness :
  result (get_google_credentials Examples.service_account)
    = Return (PCredentials (CredentialsObject 1)) /\
  result (get_google_credentials Examples.broken_service_account)
    = Return (PStr "secret") /\
  result (get_google_credentials Examples.key_only) = Return (PStr "secret") /\
  result (get_google_credentials Examples.default_only)
    = Return (PCredentials (CredentialsObject 2)) /\
  result (get_google_credentials Examples.bare) = Return PNone.
Proof.
  assert (Hsa : forall w c,
            os_getenv w "GOOGLE_APPLICATION_CREDENTIALS" = None ->
            ~ service_account_available w c).
  { intros w c Hnone (path & Hp & _). congruence. }
  assert (Hkey : forall w key,
            os_getenv w "GOOGLE_API_KEY" = None -> ~ api_key_available w key).
  { intros w key Hnone [Hk _]. congruence. }
  split; [|split; [|split; [|split]]].
  - apply (credential_resolution_order Examples.service_account).
    exists "/etc/sa.json". split; [|split]; reflexivity.
  - destruct (credential_resolution_order Examples.broken_service_account)
      as (_ & _ & H).
    destruct (H "/etc/sa.json" _ eq_refl eq_refl eq_refl) as [[Hk _] _].
    apply Hk. split; [reflexivity|discriminate].
  - destruct (credential_resolution_order Examples.key_only) as (_ & H & _).
    apply H; [intros c; by apply Hsa|].
    split; [reflexivity|discriminate].
  - destruct (credential_resolution_order Examples.default_only)
      as (_ & H & _).
    destruct H as [_ H]; [intros c; by apply Hsa|].
    destruct H as [H _]; [intros key; by apply Hkey|].
    by apply (H _ (Some "my-project")).
  - destruct (credential_resolution_order Examples.bare) as (_ & H & _).
    destruct H as [_ H]; [intros c; by apply Hsa|].
    destruct H as [_ H]; [intros key; by apply Hkey|].
    by apply (H (Exn DefaultCredentialsError
                     "Your default credentials were not found.")).
Defined.

(** ** The search tools *)

(** Rewrites the outcome and the trace of a tool down to those of its
    parts. *)
Ltac tool_unfold :=
  unfold google_search, google_search_body,
         google_search_web, google_search_web_body,
         google_search_images, google_search_images_body,
         get_search_health;
  rewrite ?result_try_except, ?trace_try_except, ?result_bind, ?trace_bind.

(** C2: when credential resolution returns [None], each of the three
    search tools returns exactly [{"error": "No Google credentials
    available"}]; it returns, it does not raise. *)
Theorem no_credentials_error (w : World) (query : string) (num_results : Z) :
  result (get_google_credentials w) = Return PNone ->
  result (google_search w query num_results)
    = Return (error_dict "No Google credentials available") /\
  result (google_search_web w query num_results)
    = Return (error_dict "No Google credentials available") /\
  result (google_search_images w query num_results)
    = Return (error_dict "No Google credentials available").
Proof.
  intros Hnone.
  split; [|split]; tool_unfold; rewrite Hnone; reflexivity.
Qed.

Lemma no_credentials_error_witness :
  result (get_google_credentials Examples.bare) = Return PNone /\
  result (google_search Examples.bare "rocq prover" 10)
    = Return (error_dict "No Google credentials available") /\
  result (google_search_web Examples.bare "rocq prover" 5)
    = Return (error_dict "No Google credentials available") /\
  result (google_search_images Examples.bare "rocq prover" 5)
    = Return (error_dict "No Google credentials available").
Proof.
  split; [reflexivity|].
  pose proof (no_credentials_error Examples.bare "rocq prover") as H.
  split; [|split].
  - apply (H 10). reflexivity.
  - apply (H 5). reflexivity.
  - apply (H 5). reflexivity.
Defined.

(** *** Computations that leave no trace *)

Lemma silent_ret {A} (a : A) : silent (ret a).
Proof. reflexivity. Qed.

Lemma silent_raise {A} (e : exn) : silent (@raise A e).
Proof. reflexivity. Qed.

Lemma silent_lift {A} (o : outcome A) : silent (lift o).
Proof. reflexivity. Qed.

Lemma silent_bind {A B} (m : M A) (k : A -> M B) :
  silent m -> (forall a, silent (k a)) -> silent (bind m k).
Proof.
  unfold silent. intros Hm Hk. rewrite trace_bind, Hm.
  destruct (result m); [apply Hk|reflexivity].
Qed.

Lemma silent_py_get (d : pyval) (key : string) (default : pyval) :
  silent (py_get d key default).
Proof. destruct d; reflexivity. Qed.

Lemma silent_py_iter (v : pyval) : silent (py_iter v).
Proof. destruct v; reflexivity. Qed.

Lemma silent_comprehension (f : pyval -> M pyval) (items : list pyval) :
  (forall item, silent (f item)) -> silent (comprehension f items).
Proof.
  intros Hf. induction items as [|item rest IH]; simpl.
  - apply silent_ret.
  - apply silent_bind; [apply Hf|]. intros r.
    apply silent_bind; [apply IH|]. intros rs. apply silent_ret.
Qed.

Create HintDb silent.
#[local] Hint Resolve silent_ret silent_raise silent_lift silent_py_get
  silent_py_iter : silent.
#[local] Hint Extern 2 (silent (bind _ _)) =>
  apply silent_bind; [|intros ?] : silent.
#[local] Hint Extern 2 (silent (comprehension _ _)) =>
  apply silent_comprehension; intros ? : silent.

Lemma search_handlers_no_call (e : exn) :
  remote_calls (trace (search_handlers e)) = [].
Proof. unfold search_handlers. destruct (is_HttpError e); reflexivity. Qed.

Lemma search_handlers_result (e : exn) :
  result (search_handlers e) = Return (spec_error_value e).
Proof.
  unfold search_handlers, spec_error_value.
  destruct (is_HttpError e); reflexivity.
Qed.

Ltac calls_with_key_tac Hcred :=
  let Hkey := fresh "Hkey" in
  pose proof (get_google_credentials_range _ _ Hcred)
    as [[=]|[(? & [= <-] & Hkey)|(? & [=])]];
  apply truthy_PStr in Hkey;
  unfold calls_with_key;
  tool_unfold; rewrite !remote_calls_app;
  rewrite Hcred, get_google_credentials_no_call, Hkey;
  cbn [negb isinstance_str app];
  match goal with
  | |- (_ ++ remote_calls ?handled)%list = _ =>
      replace (remote_calls handled) with (@nil Request)
        by (match goal with
            | |- _ = remote_calls (match ?r with _ => _ end) =>
                destruct r; [reflexivity|];
                symmetry; apply search_handlers_no_call
            end)
  end;
  rewrite app_nil_r, trace_bind;
  destruct (build _ _ _ _) as [service|e]; [|reflexivity];
  cbn [lift trace result fst snd app];
  destruct (os_getenv _ "GOOGLE_CSE_ID") as [search_engine_id|];
    [|reflexivity];
  destruct (truthy (PStr search_engine_id)); [|reflexivity];
  unfold service_list_execute;
  rewrite !trace_bind;
  cbn [emit lift trace result fst snd app];
  match goal with
  | |- remote_calls (_ :: ?post) = _ =>
      replace post with (@nil event); [reflexivity|]
  end;
  symmetry;
  match goal with
  | |- match ?o with _ => _ end = _ => destruct o; [|reflexivity]
  end;
  change (silent ?m) with (trace m = []);
  match goal with |- trace ?m = [] => change (silent m) end;
  auto 20 with silent.

Lemma google_search_calls (w : World) (query : string) (num_results : Z)
    (key : string) :
  result (get_google_credentials w) = Return (PStr key) ->
  remote_calls (trace (google_search w query num_results))
  = calls_with_key w key (fun search_engine_id =>
      {| q := query; cx := search_engine_id;
         num := Z.min num_results 10; searchType := None |}).
Proof. intros Hcred. calls_with_key_tac Hcred. Qed.

Lemma google_search_web_calls (w : World) (query : string) (num_results : Z)
    (key : string) :
  result (get_google_credentials w) = Return (PStr key) ->
  remote_calls (trace (google_search_web w query num_results))
  = calls_with_key w key (fun search_engine_id =>
      {| q := query; cx := search_engine_id;
         num := Z.min num_results 5; searchType := Some "web" |}).
Proof. intros Hcred. calls_with_key_tac Hcred. Qed.

Lemma google_search_images_calls (w : World) (query : string)
    (num_results : Z) (key : string) :
  result (get_google_credentials w) = Return (PStr key) ->
  remote_calls (trace (google_search_images w query num_results))
  = calls_with_key w key (fun search_engine_id =>
      {| q := query; cx := search_engine_id;
         num := Z.min num_results 5; searchType := Some "image" |}).
Proof. intros Hcred. calls_with_key_tac Hcred. Qed.

Lemma elem_of_calls_with_key (w : World) (key : string)
    (request : string -> Request) (r : Request) :
  r ∈ calls_with_key w key request ->
  exists search_engine_id,
    os_getenv w "GOOGLE_CSE_ID" = Some search_engine_id /\
    r = request search_engine_id.
Proof.
  unfold calls_with_key.
  destruct (build w "customsearch" "v1" (PStr key)) as [service|e];
    [|by intros ?%elem_of_nil].
  destruct (os_getenv w "GOOGLE_CSE_ID") as [search_engine_id|];
    [|by intros ?%elem_of_nil].
  destruct (truthy (PStr search_engine_id)); [|by intros ?%elem_of_nil].
  intros ->%list_elem_of_singleton. by exists search_engine_id.
Qed.

Lemma calls_with_key_built (w : World) (key : string)
    (request : string -> Request) (service : Service)
    (search_engine_id : string) :
  build w "customsearch" "v1" (PStr key) = Return service ->
  os_getenv w "GOOGLE_CSE_ID" = Some search_engine_id ->
  search_engine_id <> "" ->
  calls_with_key w key request = [request search_engine_id].
Proof.
  intros Hbuild Hid Hne%truthy_PStr. unfold calls_with_key.
  by rewrite Hbuild, Hid, Hne.
Qed.

(** C3: with an API key as resolved credential and the search-engine
    identifier set, every remote call carries the count
    [min(num_results, 10)] for general search and [min(num_results, 5)]
    for web and image search, hence at most 10 or 5, and the type selector
    is absent for the general tool, ["web"] for the web tool and ["image"]
    for the image tool.  When the identifier is non-empty and the client
    is built, exactly one such call is issued, for the given query and
    identifier. *)
Theorem clamped_count_and_search_type (w : World) (query : string)
    (num_results : Z) (key search_engine_id : string) :
  result (get_google_credentials w) = Return (PStr key) ->
  os_getenv w "GOOGLE_CSE_ID" = Some search_engine_id ->
  (forall r,
     r ∈ remote_calls (trace (google_search w query num_results)) ->
     num r = Z.min num_results 10 /\ num r <= 10 /\ searchType r = None) /\
  (forall r,
     r ∈ remote_calls (trace (google_search_web w query num_results)) ->
     num r = Z.min num_results 5 /\ num r <= 5 /\ searchType r = Some "web") /\
  (forall r,
     r ∈ remote_calls (trace (google_search_images w query num_results)) ->
     num r = Z.min num_results 5 /\ num r <= 5 /\
     searchType r = Some "image") /\
  (forall service,
     search_engine_id <> "" ->
     build w "customsearch" "v1" (PStr key) = Return service ->
     remote_calls (trace (google_search w query num_results))
       = [{| q := query; cx := search_engine_id;
             num := Z.min num_results 10; searchType := None |}] /\
     remote_calls (trace (google_search_web w query num_results))
       = [{| q := query; cx := search_engine_id;
             num := Z.min num_results 5; searchType := Some "web" |}] /\
     remote_calls (trace (google_search_images w query num_results))
       = [{| q := query; cx := search_engine_id;
             num := Z.min num_results 5; searchType := Some "image" |}]).
Proof.
  intros Hcred Hid.
  rewrite (google_search_calls _ _ _ _ Hcred),
          (google_search_web_calls _ _ _ _ Hcred),
          (google_search_images_calls _ _ _ _ Hcred).
  split; [|split; [|split]].
  - intros r (sid & _ & ->)%elem_of_calls_with_key. cbn.
    split; [reflexivity|]. split; [lia|reflexivity].
  - intros r (sid & _ & ->)%elem_of_calls_with_key. cbn.
    split; [reflexivity|]. split; [lia|reflexivity].
  - intros r (sid & _ & ->)%elem_of_calls_with_key. cbn.
    split; [reflexivity|]. split; [lia|reflexivity].
  - intros service Hne Hbuild.
    split; [|split];
      rewrite (calls_with_key_built _ _ _ _ _ Hbuild Hid Hne); reflexivity.
Qed.

Lemma clamped_count_and_search_type_witness :
  remote_calls (trace (google_search Examples.key_and_cse "rocq" 100))
    = [{| q := "rocq"; cx := "engine"; num := 10; searchType := None |}] /\
  remote_calls (trace (google_search_web Examples.key_and_cse "rocq" 100))
    = [{| q := "rocq"; cx := "engine"; num := 5;
          searchType := Some "web" |}] /\
  remote_calls (trace (google_search_images Examples.key_and_cse "rocq" 100))
    = [{| q := "rocq"; cx := "engine"; num := 5;
          searchType := Some "image" |}].
Proof.
  destruct (clamped_count_and_search_type Examples.key_and_cse "rocq" 100
              "secret" "engine" eq_refl eq_refl) as (_ & _ & _ & H).
  apply (H (ServiceObject 0)); [discriminate|reflexivity].
Defined.

Lemma Return_inj {A} (a b : A) : Return a = Return b -> a = b.
Proof. congruence. Qed.

Lemma error_dict_inj (msg msg' : string) :
  error_dict msg = error_dict msg' -> msg = msg'.
Proof.
  intros H.
  apply (f_equal (fun v => match v with
                           | PDict d => d !! "error"
                           | _ => None
                           end)) in H.
  change (Some (PStr msg) = Some (PStr msg')) in H. congruence.
Qed.

(** Reduces a tool whose resolver outcome [Hcred] is known down to the
    branch taken on that credential. *)
Ltac with_credentials Hcred :=
  tool_unfold; rewrite ?remote_calls_app;
  rewrite ?Hcred, ?get_google_credentials_no_call;
  cbn [truthy negb isinstance_str app result trace ret fst snd].

(** C7: a resolved credential that is neither absent nor an API-key
    string makes each search tool return the fixed "Service account
    authentication not yet implemented" error, and no remote search call
    is issued. *)
Theorem service_account_not_implemented (w : World) (query : string)
    (num_results : Z) (credentials : pyval) :
  result (get_google_credentials w) = Return credentials ->
  credentials <> PNone ->
  isinstance_str credentials = false ->
  (result (google_search w query num_results)
     = Return (error_dict "Service account authentication not yet implemented for search API") /\
   result (google_search_web w query num_results)
     = Return (error_dict "Service account authentication not yet implemented") /\
   result (google_search_images w query num_results)
     = Return (error_dict "Service account authentication not yet implemented")) /\
  (remote_calls (trace (google_search w query num_results)) = [] /\
   remote_calls (trace (google_search_web w query num_results)) = [] /\
   remote_calls (trace (google_search_images w query num_results)) = []).
Proof.
  intros Hcred Hsome Hstr.
  destruct (get_google_credentials_range _ _ Hcred)
    as [->|[(key & -> & _)|(c & ->)]]; [done|discriminate|].
  split; (split; [|split]); with_credentials Hcred; reflexivity.
Qed.

Lemma service_account_not_implemented_witness :
  result (google_search Examples.service_account "rocq" 10)
    = Return (error_dict "Service account authentication not yet implemented for search API") /\
  remote_calls (trace (google_search_images Examples.default_only "rocq" 5))
    = [].
Proof.
  split.
  - apply (service_account_not_implemented Examples.service_account "rocq" 10
             (PCredentials (CredentialsObject 1)));
      [reflexivity|discriminate|reflexivity].
  - apply (service_account_not_implemented Examples.default_only "rocq" 5
             (PCredentials (CredentialsObject 2)));
      [reflexivity|discriminate|reflexivity].
Defined.

(** The three tools up to the construction of the client, for the API
    key [key]. *)
Ltac with_key Hcred :=
  let Hkey := fresh "Hkey" in
  pose proof (get_google_credentials_range _ _ Hcred)
    as [[=]|[(? & [= <-] & Hkey)|(? & [=])]];
  apply truthy_PStr in Hkey;
  tool_unfold; rewrite Hcred, Hkey;
  cbn [negb isinstance_str];
  rewrite result_bind.

(** C5 as stated fails: the client is constructed before the identifier is
    looked up, and when the constructor raises, the message returned is
    that of the constructor's exception. *)
Lemma missing_id_hidden_by_build_failure :
  result (get_google_credentials Examples.build_broken)
    = Return (PStr "secret") /\
  os_getenv Examples.build_broken "GOOGLE_CSE_ID" = None /\
  result (google_search Examples.build_broken "rocq" 10)
    = Return (error_dict "Unexpected error: name: customsearch  version: v1") /\
  ~ (exists msg,
       result (google_search Examples.build_broken "rocq" 10)
         = Return (error_dict msg) /\
       mentions msg "GOOGLE_CSE_ID" = true).
Proof.
  split; [reflexivity|]. split; [reflexivity|]. split; [reflexivity|].
  intros (msg & Hres & Hmsg).
  change (result (google_search Examples.build_broken "rocq" 10))
    with (Return (error_dict "Unexpected error: name: customsearch  version: v1"))
    in Hres.
  apply Return_inj, error_dict_inj in Hres. subst msg.
  vm_compute in Hmsg. discriminate.
Qed.

(** C5, amended: with an API key as resolved credential and the
    search-engine identifier unset or empty, no remote search call is
    issued; when the client constructor returns, each search tool returns
    an error whose message mentions GOOGLE_CSE_ID; when the constructor
    raises, each tool returns the error value of its handler for that
    exception. *)
Theorem missing_search_engine_id (w : World) (query : string)
    (num_results : Z) (key : string) :
  result (get_google_credentials w) = Return (PStr key) ->
  os_getenv w "GOOGLE_CSE_ID" = None \/ os_getenv w "GOOGLE_CSE_ID" = Some "" ->
  (remote_calls (trace (google_search w query num_results)) = [] /\
   remote_calls (trace (google_search_web w query num_results)) = [] /\
   remote_calls (trace (google_search_images w query num_results)) = []) /\
  (forall service,
     build w "customsearch" "v1" (PStr key) = Return service ->
     exists msg msg',
       result (google_search w query num_results) = Return (error_dict msg) /\
       result (google_search_web w query num_results)
         = Return (error_dict msg') /\
       result (google_search_images w query num_results)
         = Return (error_dict msg') /\
       msg = "GOOGLE_CSE_ID environment variable not set for Custom Search API" /\
       msg' = "GOOGLE_CSE_ID environment variable not set" /\
       mentions msg "GOOGLE_CSE_ID" = true /\
       mentions msg' "GOOGLE_CSE_ID" = true) /\
  (forall e,
     build w "customsearch" "v1" (PStr key) = Raise e ->
     result (google_search w query num_results)
       = Return (spec_error_value e) /\
     result (google_search_web w query num_results)
       = Return (spec_error_value e) /\
     result (google_search_images w query num_results)
       = Return (spec_error_value e)).
Proof.
  intros Hcred Hid. split; [|split].
  - rewrite (google_search_calls _ _ _ _ Hcred),
            (google_search_web_calls _ _ _ _ Hcred),
            (google_search_images_calls _ _ _ _ Hcred).
    unfold calls_with_key.
    destruct (build w "customsearch" "v1" (PStr key)); [|done].
    by destruct Hid as [-> | ->].
  - intros service Hbuild. do 2 eexists.
    split; [|split; [|split; [|split; [reflexivity|
                     split; [reflexivity|split; reflexivity]]]]];
      with_key Hcred; rewrite Hbuild; cbn [lift result snd];
      by destruct Hid as [-> | ->].
  - intros e Hbuild.
    split; [|split]; with_key Hcred; rewrite Hbuild; cbn [lift result snd];
      apply search_handlers_result.
Qed.

Lemma missing_search_engine_id_witness :
  result (google_search Examples.key_only "rocq" 10)
    = Return (error_dict "GOOGLE_CSE_ID environment variable not set for Custom Search API") /\
  result (google_search_web Examples.key_only "rocq" 5)
    = Return (error_dict "GOOGLE_CSE_ID environment variable not set") /\
  remote_calls (trace (google_search_images Examples.key_only "rocq" 5)) = [].
Proof.
  destruct (missing_search_engine_id Examples.key_only "rocq" 10 "secret"
              eq_refl (or_introl eq_refl)) as (_ & H10 & _).
  destruct (missing_search_engine_id Examples.key_only "rocq" 5 "secret"
              eq_refl (or_introl eq_refl)) as ((_ & _ & Hcalls) & H5 & _).
  destruct (H10 (ServiceObject 0) eq_refl)
    as (msg & msg' & Hg & _ & _ & -> & _).
  destruct (H5 (ServiceObject 0) eq_refl)
    as (msg5 & msg5' & _ & Hw & _ & _ & -> & _).
  split; [exact Hg|]. split; [exact Hw|exact Hcalls].
Defined.

Lemma bind_ret_l {A B} (a : A) (k : A -> M B) : bind (ret a) k = k a.
Proof. unfold bind, ret. destruct (k a). reflexivity. Qed.

Lemma result_comprehension (f : pyval -> M pyval)
    (g : gmap string pyval -> pyval) (items : list (gmap string pyval)) :
  (forall item, result (f (PDict item)) = Return (g item)) ->
  result (comprehension f (PDict <$> items)) = Return (g <$> items).
Proof.
  intros Hf. induction items as [|item rest IH]; [reflexivity|].
  cbn [fmap list_fmap comprehension].
  rewrite result_bind, Hf, result_bind.
  change (list_fmap _ _ PDict rest) with (PDict <$> rest).
  rewrite IH. reflexivity.
Qed.

(** C4: for a well-formed response, general search returns one result per
    item of the response, in order, with title, link and snippet copied
    from the item (the empty string where the item lacks the field) and
    the source "Google Custom Search".  Two items give exactly two results
    and a response without [items] gives the empty list. *)
Theorem general_search_results (w : World) (query : string) (num_results : Z)
    (key search_engine_id : string) (service : Service) (response : pyval)
    (items : list (gmap string pyval)) :
  result (get_google_credentials w) = Return (PStr key) ->
  build w "customsearch" "v1" (PStr key) = Return service ->
  os_getenv w "GOOGLE_CSE_ID" = Some search_engine_id ->
  search_engine_id <> "" ->
  list_execute w service
    {| q := query; cx := search_engine_id;
       num := Z.min num_results 10; searchType := None |} = Return response ->
  well_formed_response response items ->
  exists results,
    result (google_search w query num_results) = Return (PList results) /\
    results = spec_search_result "Google Custom Search" <$> items /\
    length results = length items /\
    (forall i item,
       items !! i = Some item ->
       exists r,
         results !! i = Some (PDict r) /\
         r !! "title" = Some (default (PStr "") (item !! "title")) /\
         r !! "link" = Some (default (PStr "") (item !! "link")) /\
         r !! "snippet" = Some (default (PStr "") (item !! "snippet")) /\
         r !! "source" = Some (PStr "Google Custom Search")).
Proof.
  intros Hcred Hbuild Hid Hne%truthy_PStr Hexec (d & -> & Hitems).
  exists (spec_search_result "Google Custom Search" <$> items).
  split; [|split; [reflexivity|split]].
  - with_key Hcred. rewrite Hbuild. cbn [lift result snd].
    rewrite Hid, Hne. unfold service_list_execute.
    rewrite !result_bind. cbn [emit lift result snd]. rewrite Hexec.
    destruct Hitems as [[Hnone ->] | Hsome].
    + cbn [py_get ret result snd]. rewrite Hnone. reflexivity.
    + cbn [py_get ret result snd]. rewrite Hsome.
      rewrite bind_ret_l. cbn [py_iter]. rewrite bind_ret_l.
      rewrite result_bind,
        (result_comprehension _ (spec_search_result "Google Custom Search"));
        reflexivity.
  - apply length_fmap.
  - intros i item Hi.
    exists (list_to_map
              [("title", default (PStr "") (item !! "title"));
               ("link", default (PStr "") (item !! "link"));
               ("snippet", default (PStr "") (item !! "snippet"));
               ("source", PStr "Google Custom Search")]).
    split; [|split; [|split; [|split]]]; try reflexivity.
    rewrite list_lookup_fmap, Hi. reflexivity.
Qed.

Lemma general_search_results_witness :
  result (google_search Examples.key_and_cse "rocq" 10)
    = Return (PList
        [py_dict [("title", PStr "Rocq"); ("link", PStr "https://rocq-prover.org");
                  ("snippet", PStr "The Rocq prover");
                  ("source", PStr "Google Custom Search")];
         py_dict [("title", PStr "stdpp"); ("link", PStr "");
                  ("snippet", PStr "");
                  ("source", PStr "Google Custom Search")]]) /\
  result (google_search Examples.empty_answer "rocq" 10) = Return (PList []).
Proof.
  split.
  - destruct (general_search_results Examples.key_and_cse "rocq" 10
                "secret" "engine" (ServiceObject 0)
                (py_dict [("kind", PStr "customsearch#search");
                          ("items", PList [PDict Examples.item1;
                                           PDict Examples.item2])])
                [Examples.item1; Examples.item2]
                eq_refl eq_refl eq_refl) as (results & Hres & -> & _);
      [discriminate|reflexivity| |exact Hres].
    eexists. split; [reflexivity|]. right. reflexivity.
  - destruct (general_search_results Examples.empty_answer "rocq" 10
                "secret" "engine" (ServiceObject 0)
                (py_dict [("kind", PStr "customsearch#search")]) []
                eq_refl eq_refl eq_refl) as (results & Hres & -> & _);
      [discriminate|reflexivity| |exact Hres].
    eexists. split; [reflexivity|]. left. split; reflexivity.
Defined.

(** C6 as stated fails: a transport failure of the remote call that is
    not an [HttpError] (here the server cannot be found) is caught by the
    second [except] clause and returned as "Unexpected error: ...", not
    as "Google API error: ...". *)
Lemma transport_failure_is_unexpected :
  result (get_google_credentials Cases.unreachable) = Return (PStr "secret") /\
  list_execute Cases.unreachable (ServiceObject 0)
    {| q := "rocq"; cx := "engine"; num := 10; searchType := None |}
    = Raise (Exn (OtherException "ServerNotFoundError")
                 "Unable to find the server at www.googleapis.com") /\
  result (google_search Cases.unreachable "rocq" 10)
    = Return (error_dict "Unexpected error: Unable to find the server at www.googleapis.com") /\
  ~ (exists details,
       result (google_search Cases.unreachable "rocq" 10)
         = Return (error_dict ("Google API error: " +:+ details))).
Proof.
  split; [reflexivity|]. split; [reflexivity|]. split; [reflexivity|].
  intros (details & Hres).
  change (result (google_search Cases.unreachable "rocq" 10))
    with (Return (error_dict "Unexpected error: Unable to find the server at www.googleapis.com"))
    in Hres.
  apply Return_inj, error_dict_inj in Hres. discriminate Hres.
Qed.

(** C6, amended: a search tool never raises.  An exception of the [try]
    block, in particular one raised by the remote call, is returned as
    "Google API error: <details>" exactly when it is an [HttpError], and
    as "Unexpected error: <details>" when it is any other exception, a
    transport failure that is not an [HttpError] included. *)
Theorem caught_exceptions_by_class (w : World) (query : string)
    (num_results : Z) :
  ((exists v, result (google_search w query num_results) = Return v) /\
   (exists v, result (google_search_web w query num_results) = Return v) /\
   (exists v, result (google_search_images w query num_results) = Return v)) /\
  (forall e,
     (is_HttpError e = true ->
      (result (google_search_body w query num_results) = Raise e ->
       result (google_search w query num_results)
         = Return (error_dict ("Google API error: " +:+ exn_str e))) /\
      (result (google_search_web_body w query num_results) = Raise e ->
       result (google_search_web w query num_results)
         = Return (error_dict ("Google API error: " +:+ exn_str e))) /\
      (result (google_search_images_body w query num_results) = Raise e ->
       result (google_search_images w query num_results)
         = Return (error_dict ("Google API error: " +:+ exn_str e)))) /\
     (is_HttpError e = false ->
      (result (google_search_body w query num_results) = Raise e ->
       result (google_search w query num_results)
         = Return (error_dict ("Unexpected error: " +:+ exn_str e))) /\
      (result (google_search_web_body w query num_results) = Raise e ->
       result (google_search_web w query num_results)
         = Return (error_dict ("Unexpected error: " +:+ exn_str e))) /\
      (result (google_search_images_body w query num_results) = Raise e ->
       result (google_search_images w query num_results)
         = Return (error_dict ("Unexpected error: " +:+ exn_str e))))) /\
  (forall key service search_engine_id e,
     result (get_google_credentials w) = Return (PStr key) ->
     build w "customsearch" "v1" (PStr key) = Return service ->
     os_getenv w "GOOGLE_CSE_ID" = Some search_engine_id ->
     search_engine_id <> "" ->
     let returned :=
       Return (error_dict ((if is_HttpError e then "Google API error: "
                            else "Unexpected error: ") +:+ exn_str e)) in
     (list_execute w service
        {| q := query; cx := search_engine_id;
           num := Z.min num_results 10; searchType := None |} = Raise e ->
      result (google_search w query num_results) = returned) /\
     (list_execute w service
        {| q := query; cx := search_engine_id;
           num := Z.min num_results 5; searchType := Some "web" |} = Raise e ->
      result (google_search_web w query num_results) = returned) /\
     (list_execute w service
        {| q := query; cx := search_engine_id;
           num := Z.min num_results 5; searchType := Some "image" |} = Raise e ->
      result (google_search_images w query num_results) = returned)).
Proof.
  split; [|split].
  - split; [|split];
      unfold google_search, google_search_web, google_search_images;
      rewrite result_try_except;
      match goal with
      | |- exists v, match ?r with _ => _ end = _ =>
          destruct r as [v|e];
          [by exists v|exists (spec_error_value e); apply search_handlers_result]
      end.
  - intros e. split; intros He; (split; [|split]); intros Hraise;
      unfold google_search, google_search_web, google_search_images;
      rewrite result_try_except, Hraise, search_handlers_result;
      unfold spec_error_value; rewrite He; reflexivity.
  - intros key service search_engine_id e Hcred Hbuild Hid Hne%truthy_PStr
      returned. subst returned.
    split; [|split]; intros Hexec;
      with_key Hcred; rewrite Hbuild; cbn [lift result snd];
      rewrite Hid, Hne; unfold service_list_execute;
      rewrite !result_bind; cbn [emit lift result snd]; rewrite Hexec;
      apply search_handlers_result.
Qed.

Lemma caught_exceptions_by_class_witness :
  result (google_search Examples.refused "rocq" 10)
    = Return (error_dict "Google API error: <HttpError 403 Forbidden>") /\
  result (google_search Cases.unreachable "rocq" 10)
    = Return (error_dict "Unexpected error: Unable to find the server at www.googleapis.com") /\
  result (google_search_web Examples.null_answer "rocq" 5)
    = Return (error_dict "Unexpected error: 'NoneType' object is not iterable") /\
  result (google_search_images Examples.discovery_broken "rocq" 5)
    = Return (error_dict "Unexpected error: metadata server unreachable").
Proof.
  split; [|split; [|split]].
  - destruct (caught_exceptions_by_class Examples.refused "rocq" 10)
      as (_ & _ & H).
    destruct (H "secret" (ServiceObject 0) "engine"
                (Exn HttpError "<HttpError 403 Forbidden>")
                eq_refl eq_refl eq_refl) as (Hg & _); [discriminate|].
    apply Hg. reflexivity.
  - destruct (caught_exceptions_by_class Cases.unreachable "rocq" 10)
      as (_ & _ & H).
    destruct (H "secret" (ServiceObject 0) "engine"
                (Exn (OtherException "ServerNotFoundError")
                     "Unable to find the server at www.googleapis.com")
                eq_refl eq_refl eq_refl) as (Hg & _); [discriminate|].
    apply Hg. reflexivity.
  - destruct (caught_exceptions_by_class Examples.null_answer "rocq" 5)
      as (_ & H & _).
    destruct (H (Exn TypeError "'NoneType' object is not iterable"))
      as (_ & Hother).
    destruct (Hother eq_refl) as (_ & Hw & _).
    apply Hw. reflexivity.
  - destruct (caught_exceptions_by_class Examples.discovery_broken "rocq" 5)
      as (_ & H & _).
    destruct (H (Exn (OtherException "TransportError")
                     "metadata server unreachable")) as (_ & Hother).
    destruct (Hother eq_refl) as (_ & _ & Hi).
    apply Hi. reflexivity.
Defined.

(** ** The health check *)

Lemma get_search_health_result (w : World) :
  result (get_search_health w) =
  match result (get_google_credentials w) with
  | Return credentials =>
      Return (py_dict
        [("status", PStr (if truthy credentials then "healthy" else "unhealthy"));
         ("credentials_available", PBool (truthy credentials));
         ("search_engine_id_set",
            PBool (truthy (py_opt_str (os_getenv w "GOOGLE_CSE_ID"))));
         ("environment_variables", py_dict
            [("GOOGLE_APPLICATION_CREDENTIALS",
                py_opt_str (os_getenv w "GOOGLE_APPLICATION_CREDENTIALS"));
             ("GOOGLE_API_KEY",
                if truthy (py_opt_str (os_getenv w "GOOGLE_API_KEY"))
                then PStr "***" else PNone);
             ("GOOGLE_CSE_ID", py_opt_str (os_getenv w "GOOGLE_CSE_ID"))])])
  | Raise e => Raise e
  end.
Proof. tool_unfold. destruct (result (get_google_credentials w)); reflexivity. Qed.

Lemma truthy_py_opt_str (v : option string) :
  truthy (py_opt_str v) = true <-> exists s, v = Some s /\ s <> "".
Proof.
  destruct v as [s|]; cbn [py_opt_str].
  - rewrite truthy_PStr. split.
    + intros Hne. by exists s.
    + by intros (s' & [= <-] & Hne).
  - split; [discriminate|]. by intros (s & [=] & _).
Qed.

Lemma truthy_credentials (w : World) (credentials : pyval) :
  result (get_google_credentials w) = Return credentials ->
  truthy credentials = true <-> credentials <> PNone.
Proof.
  intros [->|[(key & -> & Hne)|(c & ->)]]%get_google_credentials_range.
  - split; [discriminate|done].
  - rewrite truthy_PStr. split; [discriminate|done].
  - split; [discriminate|done].
Qed.

Lemma os_getenv_with_api_key (w : World) (key name : string) :
  os_getenv (with_api_key w key) name =
  if decide (name = "GOOGLE_API_KEY") then Some key else os_getenv w name.
Proof.
  unfold os_getenv, with_api_key. cbn [environ].
  destruct (decide (name = "GOOGLE_API_KEY")) as [->|Hne].
  - apply lookup_insert_eq.
  - by apply lookup_insert_ne.
Qed.

Lemma service_account_available_with_api_key (w : World) (key : string)
    (c : Credentials) :
  service_account_available (with_api_key w key) c <->
  service_account_available w c.
Proof.
  unfold service_account_available.
  rewrite os_getenv_with_api_key.
  destruct (decide (_ = _)) as [[=]|_]. reflexivity.
Qed.

Lemma api_key_resolved (w : World) (key : string) :
  api_key_available w key ->
  (forall c, ~ service_account_available w c) ->
  result (get_google_credentials w) = Return (PStr key).
Proof.
  intros Hkey Hsa. rewrite (resolver_falls_through _ Hsa).
  by apply api_key_or_default_spec.
Qed.

Lemma get_search_health_with_api_key (w : World) (key key' : string) :
  api_key_available w key ->
  (forall c, ~ service_account_available w c) ->
  key' <> "" ->
  result (get_search_health (with_api_key w key'))
  = result (get_search_health w).
Proof.
  intros Hkey Hsa Hne'.
  assert (Hkey' : api_key_available (with_api_key w key') key').
  { split; [|done]. rewrite os_getenv_with_api_key. by case_decide. }
  assert (Hsa' : forall c, ~ service_account_available (with_api_key w key') c).
  { intros c. rewrite service_account_available_with_api_key. apply Hsa. }
  rewrite !get_search_health_result.
  rewrite (api_key_resolved _ _ Hkey Hsa), (api_key_resolved _ _ Hkey' Hsa').
  rewrite !(os_getenv_with_api_key _ _ "GOOGLE_CSE_ID"),
          !(os_getenv_with_api_key _ _ "GOOGLE_APPLICATION_CREDENTIALS"),
          (os_getenv_with_api_key _ _ "GOOGLE_API_KEY").
  repeat (case_decide; try done).
  destruct Hkey as [-> Hne].
  cbn [py_opt_str]. apply truthy_PStr in Hne, Hne'. rewrite !Hne, !Hne'.
  reflexivity.
Qed.

(** C8: with only the API key configured, the health check reports
    "healthy", credentials available, and whether the search-engine
    identifier is set; the key field of the snapshot holds the placeholder
    "***", and the report is the same whatever the value of the key.  In
    general the status is "healthy" exactly when the resolver returns a
    credential other than [None], and the key field is "***" when the key
    is set and [None] otherwise. *)
Theorem health_check_report (w : World) :
  (forall key,
     api_key_available w key ->
     (forall c, ~ service_account_available w c) ->
     exists h env,
       result (get_search_health w) = Return (PDict h) /\
       h !! "status" = Some (PStr "healthy") /\
       h !! "credentials_available" = Some (PBool true) /\
       (search_engine_id_available w /\
          h !! "search_engine_id_set" = Some (PBool true) \/
        ~ search_engine_id_available w /\
          h !! "search_engine_id_set" = Some (PBool false)) /\
       h !! "environment_variables" = Some (PDict env) /\
       env !! "GOOGLE_API_KEY" = Some (PStr "***") /\
       (forall key',
          key' <> "" ->
          result (get_search_health (with_api_key w key'))
            = Return (PDict h))) /\
  (forall credentials,
     result (get_google_credentials w) = Return credentials ->
     exists h env,
       result (get_search_health w) = Return (PDict h) /\
       (credentials <> PNone /\ h !! "status" = Some (PStr "healthy") \/
        credentials = PNone /\ h !! "status" = Some (PStr "unhealthy")) /\
       h !! "environment_variables" = Some (PDict env) /\
       ((exists key, api_key_available w key) /\
          env !! "GOOGLE_API_KEY" = Some (PStr "***") \/
        ~ (exists key, api_key_available w key) /\
          env !! "GOOGLE_API_KEY" = Some PNone)).
Proof.
  split.
  - intros key Hkey Hsa.
    pose proof (api_key_resolved _ _ Hkey Hsa) as Hcred.
    pose proof Hkey as [Hget Hne%truthy_PStr].
    do 2 eexists. split; [|split; [|split; [|split; [|split; [|split]]]]].
    + rewrite get_search_health_result, Hcred, Hget.
      cbn [py_opt_str]. rewrite Hne. reflexivity.
    + reflexivity.
    + reflexivity.
    + destruct (truthy (py_opt_str (os_getenv w "GOOGLE_CSE_ID"))) eqn:Hid.
      * left. split; [|reflexivity]. by apply truthy_py_opt_str.
      * right. split; [|reflexivity].
        intros Hset%truthy_py_opt_str. congruence.
    + reflexivity.
    + reflexivity.
    + intros key' Hne'.
      rewrite (get_search_health_with_api_key _ _ _ Hkey Hsa Hne').
      rewrite get_search_health_result, Hcred, Hget.
      cbn [py_opt_str]. rewrite Hne. reflexivity.
  - intros credentials Hcred.
    do 2 eexists. split; [|split; [|split]].
    + rewrite get_search_health_result, Hcred. reflexivity.
    + destruct (truthy credentials) eqn:Ht.
      * left. split; [|reflexivity]. by apply (truthy_credentials w).
      * right. split; [|reflexivity].
        destruct (get_google_credentials_range _ _ Hcred)
          as [->|[(key & -> & Hne%truthy_PStr)|(c & ->)]];
          [done|congruence|discriminate].
    + reflexivity.
    + destruct (truthy (py_opt_str (os_getenv w "GOOGLE_API_KEY"))) eqn:Hk.
      * left. split; [|reflexivity].
        apply truthy_py_opt_str in Hk as (key & Hget & Hne). by exists key.
      * right. split; [|reflexivity].
        intros (key & Hget & Hne).
        assert (truthy (py_opt_str (os_getenv w "GOOGLE_API_KEY")) = true)
          by (apply truthy_py_opt_str; by exists key).
        congruence.
Qed.

Lemma health_check_report_witness :
  exists h env,
    result (get_search_health Examples.key_only) = Return (PDict h) /\
    h !! "status" = Some (PStr "healthy") /\
    h !! "credentials_available" = Some (PBool true) /\
    h !! "search_engine_id_set" = Some (PBool false) /\
    h !! "environment_variables" = Some (PDict env) /\
    env !! "GOOGLE_API_KEY" = Some (PStr "***").
Proof.
  destruct (health_check_report Examples.key_only) as [H _].
  destruct (H "secret") as (h & env & Hres & Hst & Hav & Hid & Henv & Hk & _).
  - split; [reflexivity|discriminate].
  - intros c (path & Hpath & _). discriminate.
  - exists h, env. split; [exact Hres|]. split; [exact Hst|].
    split; [exact Hav|]. split; [|split; [exact Henv|exact Hk]].
    destruct Hid as [[(sid & Hsid & _) _]|[_ Hid]]; [discriminate|exact Hid].
Defined.

Lemma api_key_or_default_raises (w : World) (e : exn) :
  result (api_key_or_default w) = Raise e <->
  truthy (py_opt_str (os_getenv w "GOOGLE_API_KEY")) = false /\
  auth_default w = Raise e /\ is_DefaultCredentialsError e = false.
Proof.
  unfold api_key_or_default. cbv zeta.
  destruct (truthy (py_opt_str (os_getenv w "GOOGLE_API_KEY"))).
  - split; [discriminate|]. by intros [[=] _].
  - rewrite result_try_except, result_bind.
    destruct (auth_default w) as [[c project]|e']; cbn [lift result snd].
    + split; [discriminate|]. by intros (_ & [=] & _).
    + destruct (is_DefaultCredentialsError e') eqn:He'.
      * split; [discriminate|]. intros (_ & [= ->] & He). congruence.
      * split.
        -- intros [= ->]. auto.
        -- by intros (_ & [= ->] & _).
Qed.

(** An exception leaves the resolver only from default-credential
    discovery, and only when it is not the "no credentials" error. *)
Lemma get_google_credentials_raises (w : World) (e : exn) :
  result (get_google_credentials w) = Raise e ->
  auth_default w = Raise e /\ is_DefaultCredentialsError e = false.
Proof.
  unfold get_google_credentials.
  assert (Hrest : result (api_key_or_default w) = Raise e ->
                  auth_default w = Raise e /\
                  is_DefaultCredentialsError e = false)
    by (intros (_ & H)%api_key_or_default_raises; exact H).
  destruct (os_getenv w "GOOGLE_APPLICATION_CREDENTIALS") as [path|];
    [|exact Hrest].
  destruct (truthy (PStr path) && os_path_exists w path); [|exact Hrest].
  destruct (from_service_account_file w path) as [c|e'].
  - discriminate.
  - rewrite result_bind. exact Hrest.
Qed.

(** C9: the resolver swallows the "no credentials" error of
    default-credential discovery and every exception of service-account
    loading, and nothing else: any other exception raised by discovery
    leaves the resolver, and, the health check calling the resolver
    outside any handler, leaves the health check too. *)
Theorem discovery_errors_propagate (w : World) :
  (forall e,
     (forall c, ~ service_account_available w c) ->
     (forall key, ~ api_key_available w key) ->
     auth_default w = Raise e ->
     is_DefaultCredentialsError e = false ->
     result (get_google_credentials w) = Raise e /\
     result (get_search_health w) = Raise e) /\
  (forall e,
     result (get_google_credentials w) = Raise e ->
     result (get_search_health w) = Raise e /\
     auth_default w = Raise e /\
     is_DefaultCredentialsError e = false) /\
  (forall path e,
     os_getenv w "GOOGLE_APPLICATION_CREDENTIALS" = Some path ->
     os_path_exists w path = true ->
     from_service_account_file w path = Raise e ->
     result (get_google_credentials w) = result (api_key_or_default w)).
Proof.
  split; [|split].
  - intros e Hsa Hkey Hdefault He.
    assert (Hraise : result (get_google_credentials w) = Raise e).
    { rewrite (resolver_falls_through _ Hsa).
      apply api_key_or_default_raises. split; [|by split].
      destruct (truthy (py_opt_str (os_getenv w "GOOGLE_API_KEY"))) eqn:Ht;
        [|reflexivity].
      apply truthy_py_opt_str in Ht as (key & Hget & Hne).
      destruct (Hkey key). by split. }
    split; [exact Hraise|].
    by rewrite get_search_health_result, Hraise.
  - intros e Hraise. split.
    + by rewrite get_search_health_result, Hraise.
    + by apply get_google_credentials_raises.
  - intros path e Hpath _ Hload.
    apply resolver_falls_through.
    by apply (load_failure_not_available _ _ _ Hpath Hload).
Qed.

Lemma discovery_errors_propagate_witness :
  result (get_google_credentials Examples.discovery_broken)
    = Raise (Exn (OtherException "TransportError") "metadata server unreachable") /\
  result (get_search_health Examples.discovery_broken)
    = Raise (Exn (OtherException "TransportError") "metadata server unreachable").
Proof.
  destruct (discovery_errors_propagate Examples.discovery_broken) as [H _].
  apply H.
  - intros c (path & Hpath & Hex & _). vm_compute in Hpath.
    injection Hpath as <-. discriminate.
  - intros key [Hget _]. discriminate.
  - reflexivity.
  - reflexivity.
Defined.

(** C10: when the service-account path variable is set, the environment
    snapshot of the health check holds its value verbatim and the
    search-engine identifier verbatim; the API key field alone is
    redacted, to "***" or [None].  The health check returns this report
    whenever the resolver returns. *)
Theorem health_environment_snapshot (w : World) (path : string) :
  os_getenv w "GOOGLE_APPLICATION_CREDENTIALS" = Some path ->
  (forall report,
     result (get_search_health w) = Return report ->
     exists h env,
       report = PDict h /\
       h !! "environment_variables" = Some (PDict env) /\
       env !! "GOOGLE_APPLICATION_CREDENTIALS" = Some (PStr path) /\
       env !! "GOOGLE_CSE_ID"
         = Some (py_opt_str (os_getenv w "GOOGLE_CSE_ID")) /\
       (env !! "GOOGLE_API_KEY" = Some (PStr "***") \/
        env !! "GOOGLE_API_KEY" = Some PNone) /\
       dom env = {["GOOGLE_APPLICATION_CREDENTIALS"; "GOOGLE_API_KEY";
                   "GOOGLE_CSE_ID"]}) /\
  (forall credentials,
     result (get_google_credentials w) = Return credentials ->
     exists report, result (get_search_health w) = Return report).
Proof.
  intros Hpath. split.
  - intros report. rewrite get_search_health_result.
    destruct (result (get_google_credentials w)) as [credentials|e];
      [|discriminate].
    intros <-%Return_inj. rewrite Hpath.
    do 2 eexists.
    split; [reflexivity|]. split; [reflexivity|]. split; [reflexivity|].
    split; [reflexivity|]. split.
    + destruct (truthy (py_opt_str (os_getenv w "GOOGLE_API_KEY")));
        [left|right]; reflexivity.
    + rewrite dom_list_to_map_L. reflexivity.
  - intros credentials Hcred. rewrite get_search_health_result, Hcred.
    by eexists.
Qed.

Lemma health_environment_snapshot_witness :
  exists h env,
    result (get_search_health Examples.service_account) = Return (PDict h) /\
    h !! "environment_variables" = Some (PDict env) /\
    env !! "GOOGLE_APPLICATION_CREDENTIALS" = Some (PStr "/etc/sa.json") /\
    env !! "GOOGLE_CSE_ID" = Some (PStr "engine") /\
    (env !! "GOOGLE_API_KEY" = Some (PStr "***") \/
     env !! "GOOGLE_API_KEY" = Some PNone).
Proof.
  destruct (health_environment_snapshot Examples.service_account
              "/etc/sa.json" eq_refl) as [H _].
  destruct (H _ eq_refl) as (h & env & Hrep & Henv & Hgac & Hcse & Hkey & _).
  exists h, env. split; [by rewrite <- Hrep|].
  split; [exact Henv|]. split; [exact Hgac|]. split; [exact Hcse|exact Hkey].
Defined.

(** ** Edge cases *)

(** A search-engine identifier set to the empty string counts as not set:
    the search tools report it missing and the health check reports
    [search_engine_id_set] false, while the snapshot shows the empty
    value. *)
Example empty_identifier_is_not_set :
  os_getenv Examples.empty_cse "GOOGLE_CSE_ID" = Some "" /\
  google_search Examples.empty_cse "rocq" 10
    = ([], Return (error_dict "GOOGLE_CSE_ID environment variable not set for Custom Search API")) /\
  exists h env,
    result (get_search_health Examples.empty_cse) = Return (PDict h) /\
    h !! "search_engine_id_set" = Some (PBool false) /\
    h !! "environment_variables" = Some (PDict env) /\
    env !! "GOOGLE_CSE_ID" = Some (PStr "").
Proof.
  split; [reflexivity|]. split; [reflexivity|].
  do 2 eexists. split; [reflexivity|]. split; [reflexivity|].
  split; reflexivity.
Qed.

(** An ill-formed answer of the endpoint is reported, not raised. *)
Example null_items_is_reported :
  google_search Examples.null_answer "rocq" 10
  = ([RemoteCall (ServiceObject 0)
        {| q := "rocq"; cx := "engine"; num := 10; searchType := None |};
      LogError "Unexpected error: 'NoneType' object is not iterable"],
     Return (error_dict "Unexpected error: 'NoneType' object is not iterable")).
Proof. reflexivity. Qed.

(** * Further properties of the module *)

(** ** Result mapping of the web and image tools *)

Lemma result_comprehension_raise (f : pyval -> M pyval)
    (g : gmap string pyval -> pyval) (pre : list (gmap string pyval))
    (bad : pyval) (rest : list pyval) (e : exn) :
  (forall item, result (f (PDict item)) = Return (g item)) ->
  result (f bad) = Raise e ->
  result (comprehension f ((PDict <$> pre) ++ bad :: rest)) = Raise e.
Proof.
  intros Hf Hbad. induction pre as [|item pre IH].
  - cbn [fmap list_fmap app comprehension]. by rewrite result_bind, Hbad.
  - cbn [fmap list_fmap app comprehension].
    rewrite result_bind, Hf, result_bind.
    change (list_fmap _ _ PDict pre) with (PDict <$> pre).
    by rewrite IH.
Qed.

(** The outcome of a tool once the endpoint has answered [response]. *)
Ltac after_answer Hcred Hbuild Hid Hne Hexec :=
  with_key Hcred; rewrite Hbuild; cbn [lift result snd];
  rewrite Hid, Hne; unfold service_list_execute;
  rewrite !result_bind; cbn [emit lift result snd]; rewrite Hexec.

Ltac mapped_results Hitems g :=
  destruct Hitems as [[Hnone ->] | Hsome];
  [ cbn [py_get ret result snd]; rewrite Hnone; reflexivity
  | cbn [py_get ret result snd]; rewrite Hsome;
    rewrite bind_ret_l; cbn [py_iter]; rewrite bind_ret_l;
    rewrite result_bind, (result_comprehension _ g); reflexivity ].

(** X1: for a well-formed response, web search returns one result per
    item of the response, in order, whatever count was asked for, with
    title, link and snippet copied from the item (the empty string where
    missing) and the source "Google Web Search". *)
Theorem web_search_results (w : World) (query : string) (num_results : Z)
    (key search_engine_id : string) (service : Service) (response : pyval)
    (items : list (gmap string pyval)) :
  result (get_google_credentials w) = Return (PStr key) ->
  build w "customsearch" "v1" (PStr key) = Return service ->
  os_getenv w "GOOGLE_CSE_ID" = Some search_engine_id ->
  search_engine_id <> "" ->
  list_execute w service
    {| q := query; cx := search_engine_id;
       num := Z.min num_results 5; searchType := Some "web" |}
    = Return response ->
  well_formed_response response items ->
  result (google_search_web w query num_results)
    = Return (PList (spec_search_result "Google Web Search" <$> items)) /\
  forall i item,
    items !! i = Some item ->
    exists r,
      (spec_search_result "Google Web Search" <$> items) !! i
        = Some (PDict r) /\
      r !! "title" = Some (default (PStr "") (item !! "title")) /\
      r !! "link" = Some (default (PStr "") (item !! "link")) /\
      r !! "snippet" = Some (default (PStr "") (item !! "snippet")) /\
      r !! "source" = Some (PStr "Google Web Search").
Proof.
  intros Hcred Hbuild Hid Hne%truthy_PStr Hexec (d & -> & Hitems). split.
  - after_answer Hcred Hbuild Hid Hne Hexec.
    mapped_results Hitems (spec_search_result "Google Web Search").
  - intros i item Hi.
    exists (list_to_map
              [("title", default (PStr "") (item !! "title"));
               ("link", default (PStr "") (item !! "link"));
               ("snippet", default (PStr "") (item !! "snippet"));
               ("source", PStr "Google Web Search")]).
    split; [|split; [|split; [|split]]]; try reflexivity.
    rewrite list_lookup_fmap, Hi. reflexivity.
Qed.

Lemma web_search_results_witness :
  result (google_search_web Cases.generous "rocq" 1)
  = Return (PList (spec_search_result "Google Web Search"
                     <$> [Examples.item1; Examples.item2; Examples.item1])).
Proof.
  apply (web_search_results Cases.generous "rocq" 1 "secret" "engine"
           (ServiceObject 0)
           (py_dict [("items", PList [PDict Examples.item1;
                                      PDict Examples.item2;
                                      PDict Examples.item1])])
           [Examples.item1; Examples.item2; Examples.item1]
           eq_refl eq_refl eq_refl);
    [discriminate|reflexivity|].
  eexists. split; [reflexivity|]. right. reflexivity.
Defined.

(** X2: for a well-formed response, image search returns one result per
    item, in order, with title and link copied (the empty string where
    missing), the item's [image] member (the empty dict where missing)
    and the source "Google Image Search"; an image result has no
    [snippet]. *)
Theorem image_search_results (w : World) (query : string) (num_results : Z)
    (key search_engine_id : string) (service : Service) (response : pyval)
    (items : list (gmap string pyval)) :
  result (get_google_credentials w) = Return (PStr key) ->
  build w "customsearch" "v1" (PStr key) = Return service ->
  os_getenv w "GOOGLE_CSE_ID" = Some search_engine_id ->
  search_engine_id <> "" ->
  list_execute w service
    {| q := query; cx := search_engine_id;
       num := Z.min num_results 5; searchType := Some "image" |}
    = Return response ->
  well_formed_response response items ->
  result (google_search_images w query num_results)
    = Return (PList (spec_image_result <$> items)) /\
  forall i item,
    items !! i = Some item ->
    exists r,
      (spec_image_result <$> items) !! i = Some (PDict r) /\
      r !! "title" = Some (default (PStr "") (item !! "title")) /\
      r !! "link" = Some (default (PStr "") (item !! "link")) /\
      r !! "image" = Some (default (PDict ∅) (item !! "image")) /\
      r !! "source" = Some (PStr "Google Image Search") /\
      r !! "snippet" = None.
Proof.
  intros Hcred Hbuild Hid Hne%truthy_PStr Hexec (d & -> & Hitems). split.
  - after_answer Hcred Hbuild Hid Hne Hexec.
    mapped_results Hitems spec_image_result.
  - intros i item Hi.
    exists (list_to_map
              [("title", default (PStr "") (item !! "title"));
               ("link", default (PStr "") (item !! "link"));
               ("image", default (PDict ∅) (item !! "image"));
               ("source", PStr "Google Image Search")]).
    split; [|split; [|split; [|split; [|split]]]]; try reflexivity.
    rewrite list_lookup_fmap, Hi. reflexivity.
Qed.

Lemma image_search_results_witness :
  result (google_search_images Cases.image_world "rooster" 5)
  = Return (PList
      [py_dict [("title", PStr "Rooster"); ("link", PStr "https://example.org/r.png");
                ("image", py_dict [("width", PInt 640); ("height", PInt 480)]);
                ("source", PStr "Google Image Search")];
       py_dict [("title", PStr ""); ("link", PStr "https://example.org/p.png");
                ("image", PDict ∅);
                ("source", PStr "Google Image Search")]]).
Proof.
  apply (image_search_results Cases.image_world "rooster" 5 "secret" "engine"
           (ServiceObject 0)
           (py_dict [("items", PList [PDict Cases.picture; PDict Cases.plain])])
           [Cases.picture; Cases.plain] eq_refl eq_refl eq_refl);
    [discriminate|reflexivity|].
  eexists. split; [reflexivity|]. right. reflexivity.
Defined.

(** ** Ill-formed answers *)

Ltac stray_results Hitems Hbad bad g :=
  cbn [py_get ret result snd]; rewrite Hitems;
  rewrite bind_ret_l; cbn [py_iter]; rewrite bind_ret_l;
  rewrite result_bind, (result_comprehension_raise _ g _ _ _
    (Exn AttributeError
       ("'" +:+ type_name bad +:+ "' object has no attribute 'get'")));
  [ apply search_handlers_result
  | reflexivity
  | destruct bad; try discriminate Hbad; reflexivity ].

(** X3: one item that is not a JSON object spoils the whole answer.  When
    the [items] list of the response holds objects up to an element [bad]
    of another type, the tool returns no partial list but the error
    "Unexpected error: '<type of bad>' object has no attribute 'get'". *)
Theorem stray_item_discards_results (w : World) (query : string)
    (num_results : Z) (key search_engine_id : string) (service : Service)
    (d : gmap string pyval) (pre : list (gmap string pyval)) (bad : pyval)
    (rest : list pyval) :
  result (get_google_credentials w) = Return (PStr key) ->
  build w "customsearch" "v1" (PStr key) = Return service ->
  os_getenv w "GOOGLE_CSE_ID" = Some search_engine_id ->
  search_engine_id <> "" ->
  d !! "items" = Some (PList ((PDict <$> pre) ++ bad :: rest)) ->
  is_dict bad = false ->
  let reported :=
    Return (error_dict ("Unexpected error: '" +:+ type_name bad
                        +:+ "' object has no attribute 'get'")) in
  (list_execute w service
     {| q := query; cx := search_engine_id;
        num := Z.min num_results 10; searchType := None |}
     = Return (PDict d) ->
   result (google_search w query num_results) = reported) /\
  (list_execute w service
     {| q := query; cx := search_engine_id;
        num := Z.min num_results 5; searchType := Some "web" |}
     = Return (PDict d) ->
   result (google_search_web w query num_results) = reported) /\
  (list_execute w service
     {| q := query; cx := search_engine_id;
        num := Z.min num_results 5; searchType := Some "image" |}
     = Return (PDict d) ->
   result (google_search_images w query num_results) = reported).
Proof.
  intros Hcred Hbuild Hid Hne%truthy_PStr Hitems Hbad reported.
  subst reported. split; [|split]; intros Hexec;
    after_answer Hcred Hbuild Hid Hne Hexec.
  - stray_results Hitems Hbad bad (spec_search_result "Google Custom Search").
  - stray_results Hitems Hbad bad (spec_search_result "Google Web Search").
  - stray_results Hitems Hbad bad spec_image_result.
Qed.

Lemma stray_item_discards_results_witness :
  result (google_search Cases.stray "rocq" 10)
  = Return (error_dict "Unexpected error: 'str' object has no attribute 'get'").
Proof.
  destruct (stray_item_discards_results Cases.stray "rocq" 10 "secret"
              "engine" (ServiceObject 0)
              (list_to_map [("items", PList [PDict Examples.item1; PStr "oops";
                                             PDict Examples.item2])])
              [Examples.item1] (PStr "oops") [PDict Examples.item2]
              eq_refl eq_refl eq_refl) as (H & _);
    [discriminate|reflexivity|reflexivity|].
  apply H. reflexivity.
Defined.

(** ** What a tool returns, in every world *)

Lemma result_bind_Return_inv {A B} (m : M A) (k : A -> M B) (b : B) :
  result (bind m k) = Return b ->
  exists a, result m = Return a /\ result (k a) = Return b.
Proof.
  rewrite result_bind. destruct (result m) as [a|e]; [|discriminate].
  intros H. by exists a.
Qed.

Lemma comprehension_Forall (f : pyval -> M pyval) (P : pyval -> Prop)
    (items rs : list pyval) :
  (forall item r, result (f item) = Return r -> P r) ->
  result (comprehension f items) = Return rs -> Forall P rs.
Proof.
  intros Hf. revert rs. induction items as [|item rest IH]; intros rs.
  - intros [= <-]. constructor.
  - cbn [comprehension].
    intros (r & Hr & (rs' & Hrs' & [= <-])%result_bind_Return_inv)
      %result_bind_Return_inv.
    constructor; [by apply (Hf item)|by apply IH].
Qed.

(** The entry built from one item, when it is built at all. *)
Ltac entry_of_item item H :=
  destruct item; cbn [py_get] in H;
  first
    [ rewrite result_bind in H; cbn [raise result snd] in H; discriminate H
    | rewrite !bind_ret_l in H; apply Return_inj in H; subst;
      eexists; split; [reflexivity|];
      split; [rewrite dom_list_to_map_L|]; reflexivity ].

(** A value returned by the [try] block is an error dict or a list of
    entries. *)
Ltac body_output H :=
  let c := fresh "c" in
  apply result_bind_Return_inv in H as (c & _ & H);
  destruct (truthy c); cbn [negb] in H;
  [|apply Return_inj in H; subst; left; by eexists];
  destruct (isinstance_str c);
  [|apply Return_inj in H; subst; left; by eexists];
  apply result_bind_Return_inv in H as (? & _ & H);
  destruct (os_getenv _ "GOOGLE_CSE_ID") as [search_engine_id|];
  [|apply Return_inj in H; subst; left; by eexists];
  destruct (truthy (PStr search_engine_id));
  [|apply Return_inj in H; subst; left; by eexists];
  apply result_bind_Return_inv in H as (? & _ & H);
  apply result_bind_Return_inv in H as (? & _ & H);
  apply result_bind_Return_inv in H as (? & _ & H);
  apply result_bind_Return_inv in H as (? & Hcomp & H);
  apply Return_inj in H; subst; right;
  eexists; split; [reflexivity|];
  eapply comprehension_Forall; [|exact Hcomp];
  clear; intros item r Hr; entry_of_item item Hr.

Ltac tool_output_tac :=
  match goal with
  | |- exists v, result (try_except ?body _) = Return v /\ _ =>
      rewrite result_try_except;
      let H := fresh "H" in
      destruct (result body) as [v|e] eqn:H;
      [ exists v; split; [reflexivity|]
      | exists (spec_error_value e); split; [apply search_handlers_result|];
        left; by eexists ]
  end.

(** X4: in every world each search tool returns, and what it returns is
    either an error dict [{"error": msg}] or a list whose entries are
    dicts with exactly the keys title, link, snippet, source (image in
    place of snippet for the image tool) and the source label of that
    tool. *)
Theorem search_tool_output (w : World) (query : string) (num_results : Z) :
  (exists v,
     result (google_search w query num_results) = Return v /\
     tool_output {["title"; "link"; "snippet"; "source"]}
       "Google Custom Search" v) /\
  (exists v,
     result (google_search_web w query num_results) = Return v /\
     tool_output {["title"; "link"; "snippet"; "source"]}
       "Google Web Search" v) /\
  (exists v,
     result (google_search_images w query num_results) = Return v /\
     tool_output {["title"; "link"; "image"; "source"]}
       "Google Image Search" v).
Proof.
  split; [|split].
  - unfold google_search. tool_output_tac.
    unfold google_search_body in H. body_output H.
  - unfold google_search_web. tool_output_tac.
    unfold google_search_web_body in H. body_output H.
  - unfold google_search_images. tool_output_tac.
    unfold google_search_images_body in H. body_output H.
Qed.

(** ** Where a returned credential comes from *)

Lemma api_key_or_default_sound (w : World) (v : pyval) :
  result (api_key_or_default w) = Return v ->
  (v = PNone /\
   exists e, auth_default w = Raise e /\ is_DefaultCredentialsError e = true) \/
  (exists key, v = PStr key /\ api_key_available w key) \/
  (exists c project, v = PCredentials c /\ auth_default w = Return (c, project)).
Proof.
  unfold api_key_or_default, api_key_available. cbv zeta.
  destruct (os_getenv w "GOOGLE_API_KEY") as [key|]; cbn [py_opt_str].
  - destruct (truthy (PStr key)) eqn:Et.
    + intros [= <-]. right; left. exists key.
      split; [reflexivity|]. split; [reflexivity|by apply truthy_PStr].
    + destruct (auth_default w) as [[c project]|e]; cbn.
      * intros [= <-]. right; right. by exists c, project.
      * destruct (is_DefaultCredentialsError e) eqn:He; cbn; intros [= <-].
        left. split; [reflexivity|by exists e].
  - cbn [truthy]. destruct (auth_default w) as [[c project]|e]; cbn.
    + intros [= <-]. right; right. by exists c, project.
    + destruct (is_DefaultCredentialsError e) eqn:He; cbn; intros [= <-].
      left. split; [reflexivity|by exists e].
Qed.

Lemma resolved_key_is_env_key (w : World) (key : string) :
  result (get_google_credentials w) = Return (PStr key) ->
  api_key_available w key.
Proof.
  assert (Hrest : result (api_key_or_default w) = Return (PStr key) ->
                  api_key_available w key).
  { intros [[[=] _]|[(key' & [= <-] & H)|(c & project & [=] & _)]]
      %api_key_or_default_sound. exact H. }
  unfold get_google_credentials.
  destruct (os_getenv w "GOOGLE_APPLICATION_CREDENTIALS") as [path|];
    [|exact Hrest].
  destruct (truthy (PStr path) && os_path_exists w path); [|exact Hrest].
  destruct (from_service_account_file w path) as [c|e]; [discriminate|].
  rewrite result_bind. exact Hrest.
Qed.

(** X5: whatever the resolver returns is accounted for by the world:
    [None] only when default-credential discovery raised the "no
    credentials" error, a string only when it is the non-empty value of
    GOOGLE_API_KEY, a credentials object only when it was loaded from the
    service-account file or found by discovery.  The resolver returns
    nothing else. *)
Theorem resolved_credential_origin (w : World) (v : pyval) :
  result (get_google_credentials w) = Return v ->
  (v = PNone /\
   exists e, auth_default w = Raise e /\ is_DefaultCredentialsError e = true) \/
  (exists key,
     v = PStr key /\ os_getenv w "GOOGLE_API_KEY" = Some key /\ key <> "") \/
  (exists c,
     v = PCredentials c /\
     (service_account_available w c \/
      exists project, auth_default w = Return (c, project))).
Proof.
  assert (Hrest : result (api_key_or_default w) = Return v ->
    (v = PNone /\
     exists e, auth_default w = Raise e /\ is_DefaultCredentialsError e = true) \/
    (exists key, v = PStr key /\ api_key_available w key) \/
    (exists c,
       v = PCredentials c /\
       (service_account_available w c \/
        exists project, auth_default w = Return (c, project)))).
  { intros [H|[H|(c & project & -> & H)]]%api_key_or_default_sound;
      [by left|by right; left|].
    right; right. exists c. split; [reflexivity|]. right. by exists project. }
  unfold get_google_credentials.
  destruct (os_getenv w "GOOGLE_APPLICATION_CREDENTIALS") as [path|] eqn:Hpath;
    [|exact Hrest].
  destruct (truthy (PStr path) && os_path_exists w path) eqn:Hg;
    [|exact Hrest].
  apply andb_true_iff in Hg as [_ Hex].
  destruct (from_service_account_file w path) as [c|e] eqn:Hload.
  - intros [= <-]. right; right. exists c. split; [reflexivity|].
    left. by exists path.
  - rewrite result_bind. exact Hrest.
Qed.


Lemma resolved_credential_origin_witness :
  (exists key,
     PStr "secret" = PStr key /\
     os_getenv Examples.broken_service_account "GOOGLE_API_KEY" = Some key /\
     key <> "") /\
  (exists e,
     auth_default Cases.empty_key = Raise e /\
     is_DefaultCredentialsError e = true).
Proof.
  split.
  - destruct (resolved_credential_origin Examples.broken_service_account
                (PStr "secret") eq_refl) as [[[=] _]|[H|(c & [=] & _)]].
    exact H.
  - destruct (resolved_credential_origin Cases.empty_key PNone eq_refl)
      as [[_ H]|[(key & [=] & _)|(c & [=] & _)]].
    exact H.
Defined.

(** ** Remote calls, in every world *)

Lemma calls_without_key (w : World) (query : string) (num_results : Z) :
  (forall key, result (get_google_credentials w) <> Return (PStr key)) ->
  remote_calls (trace (google_search w query num_results)) = [] /\
  remote_calls (trace (google_search_web w query num_results)) = [] /\
  remote_calls (trace (google_search_images w query num_results)) = [].
Proof.
  intros Hno.
  destruct (result (get_google_credentials w)) as [v|e] eqn:Hcred.
  - destruct (get_google_credentials_range _ _ Hcred)
      as [->|[(key & -> & _)|(c & ->)]].
    + split; [|split]; with_credentials Hcred; reflexivity.
    + by destruct (Hno key).
    + split; [|split]; with_credentials Hcred; reflexivity.
  - split; [|split]; with_credentials Hcred; apply search_handlers_no_call.
Qed.

Lemma calls_with_key_justified (w : World) (query key : string)
    (request : string -> Request) :
  result (get_google_credentials w) = Return (PStr key) ->
  (forall search_engine_id,
     q (request search_engine_id) = query /\
     cx (request search_engine_id) = search_engine_id) ->
  (length (calls_with_key w key request) <= 1)%nat /\
  Forall (justified_call w query) (calls_with_key w key request).
Proof.
  intros Hcred Hreq. unfold calls_with_key.
  destruct (build w "customsearch" "v1" (PStr key));
    [|split; [cbn; lia|constructor]].
  destruct (os_getenv w "GOOGLE_CSE_ID") as [search_engine_id|] eqn:Hid;
    [|split; [cbn; lia|constructor]].
  destruct (truthy (PStr search_engine_id)) eqn:Hne;
    [|split; [cbn; lia|constructor]].
  split; [cbn; lia|]. constructor; [|constructor].
  destruct (Hreq search_engine_id) as [Hq Hcx].
  unfold justified_call. rewrite Hq, Hcx.
  split; [reflexivity|]. split; [exact Hid|].
  split; [by apply truthy_PStr|].
  exists key. split; [exact Hcred|].
  by destruct (resolved_key_is_env_key _ _ Hcred).
Qed.

(** X6: in every world a search tool issues at most one remote call, and
    a call that is issued carries the caller's query and the non-empty
    value of GOOGLE_CSE_ID, the resolved credential being the value of
    GOOGLE_API_KEY.  Without an API key as resolved credential, no call is
    issued. *)
Theorem at_most_one_justified_call (w : World) (query : string)
    (num_results : Z) :
  ((length (remote_calls (trace (google_search w query num_results))) <= 1)%nat /\
   Forall (justified_call w query)
     (remote_calls (trace (google_search w query num_results)))) /\
  ((length (remote_calls (trace (google_search_web w query num_results))) <= 1)%nat /\
   Forall (justified_call w query)
     (remote_calls (trace (google_search_web w query num_results)))) /\
  ((length (remote_calls (trace (google_search_images w query num_results))) <= 1)%nat /\
   Forall (justified_call w query)
     (remote_calls (trace (google_search_images w query num_results)))).
Proof.
  destruct (result (get_google_credentials w)) as [v|e] eqn:Hcred.
  2: { destruct (calls_without_key w query num_results)
         as (-> & -> & ->); [by rewrite Hcred|].
       repeat split; (cbn; lia) || constructor. }
  destruct (get_google_credentials_range _ _ Hcred)
    as [->|[(key & -> & _)|(c & ->)]].
  - destruct (calls_without_key w query num_results)
      as (-> & -> & ->); [by rewrite Hcred|].
    repeat split; (cbn; lia) || constructor.
  - rewrite (google_search_calls _ _ _ _ Hcred),
            (google_search_web_calls _ _ _ _ Hcred),
            (google_search_images_calls _ _ _ _ Hcred).
    split; [|split]; by apply calls_with_key_justified.
  - destruct (calls_without_key w query num_results)
      as (-> & -> & ->); [by rewrite Hcred|].
    repeat split; (cbn; lia) || constructor.
Qed.

(** X7: the count is clamped from above only.  With an API key, a built
    client and a non-empty identifier, a count of at most 10 (general) or
    at most 5 (web, image) is sent as it is, zero and negative counts
    included. *)
Theorem small_counts_pass_unchanged (w : World) (query : string)
    (num_results : Z) (key search_engine_id : string) (service : Service) :
  result (get_google_credentials w) = Return (PStr key) ->
  build w "customsearch" "v1" (PStr key) = Return service ->
  os_getenv w "GOOGLE_CSE_ID" = Some search_engine_id ->
  search_engine_id <> "" ->
  (num_results <= 10 ->
   remote_calls (trace (google_search w query num_results))
     = [{| q := query; cx := search_engine_id;
           num := num_results; searchType := None |}]) /\
  (num_results <= 5 ->
   remote_calls (trace (google_search_web w query num_results))
     = [{| q := query; cx := search_engine_id;
           num := num_results; searchType := Some "web" |}] /\
   remote_calls (trace (google_search_images w query num_results))
     = [{| q := query; cx := search_engine_id;
           num := num_results; searchType := Some "image" |}]).
Proof.
  intros Hcred Hbuild Hid Hne.
  rewrite (google_search_calls _ _ _ _ Hcred),
          (google_search_web_calls _ _ _ _ Hcred),
          (google_search_images_calls _ _ _ _ Hcred).
  rewrite !(calls_with_key_built _ _ _ _ _ Hbuild Hid Hne).
  split.
  - intros Hle. by rewrite Z.min_l.
  - intros Hle. by rewrite Z.min_l.
Qed.

Lemma small_counts_pass_unchanged_witness :
  remote_calls (trace (google_search Examples.key_and_cse "rocq" 0))
    = [{| q := "rocq"; cx := "engine"; num := 0; searchType := None |}] /\
  remote_calls (trace (google_search_web Examples.key_and_cse "rocq" (-3)))
    = [{| q := "rocq"; cx := "engine"; num := -3;
          searchType := Some "web" |}].
Proof.
  split.
  - apply (small_counts_pass_unchanged Examples.key_and_cse "rocq" 0
             "secret" "engine" (ServiceObject 0) eq_refl eq_refl eq_refl);
      [discriminate|lia].
  - apply (small_counts_pass_unchanged Examples.key_and_cse "rocq" (-3)
             "secret" "engine" (ServiceObject 0) eq_refl eq_refl eq_refl);
      [discriminate|lia].
Defined.

(** ** The health check and the search client *)

(** X8: the health check never touches the search client: it issues no
    remote call, its trace is that of credential resolution, and its
    outcome is the same whatever [build] and the endpoint would do. *)
Theorem health_check_ignores_client (w : World)
    (bld : string -> string -> pyval -> outcome Service)
    (exec : Service -> Request -> outcome pyval) :
  get_search_health (with_client w bld exec) = get_search_health w /\
  trace (get_search_health w) = trace (get_google_credentials w) /\
  remote_calls (trace (get_search_health w)) = [].
Proof.
  split; [reflexivity|].
  assert (Htrace : trace (get_search_health w)
                   = trace (get_google_credentials w)).
  { unfold get_search_health. rewrite trace_bind.
    destruct (result (get_google_credentials w)); apply app_nil_r. }
  split; [exact Htrace|].
  rewrite Htrace. apply get_google_credentials_no_call.
Qed.

Lemma error_dict_not_list (msg : string) (entries : list pyval) :
  Return (error_dict msg) <> Return (PList entries).
Proof. unfold error_dict, py_dict. discriminate. Qed.

(** A tool returns a list only with an API key and a non-empty
    identifier. *)
Ltac list_needs_configuration H :=
  let Hcred := fresh "Hcred" in
  destruct (result (get_google_credentials _)) as [v|e] eqn:Hcred;
  [ destruct (get_google_credentials_range _ _ Hcred)
      as [->|[(key & -> & Hkey)|(c & ->)]];
    [ exfalso; revert H; with_credentials Hcred; apply error_dict_not_list
    | exists key; split; [reflexivity|];
      revert H; with_key Hcred;
      destruct (build _ _ _ _) as [service|e]; cbn [lift result snd];
      [ destruct (os_getenv _ "GOOGLE_CSE_ID") as [search_engine_id|];
        [ destruct (truthy (PStr search_engine_id)) eqn:Hne;
          [ intros _; exists search_engine_id;
            split; [reflexivity|by apply truthy_PStr]
          | intros H; by apply error_dict_not_list in H ]
        | intros H; by apply error_dict_not_list in H ]
      | rewrite search_handlers_result; unfold spec_error_value;
        intros H; by apply error_dict_not_list in H ]
    | exfalso; revert H; with_credentials Hcred; apply error_dict_not_list ]
  | exfalso; revert H; with_credentials Hcred;
    rewrite search_handlers_result; unfold spec_error_value;
    apply error_dict_not_list ].

Lemma list_needs_key_and_identifier (w : World) (query : string)
    (num_results : Z) (entries : list pyval) :
  result (google_search w query num_results) = Return (PList entries) \/
  result (google_search_web w query num_results) = Return (PList entries) \/
  result (google_search_images w query num_results) = Return (PList entries) ->
  exists key,
    result (get_google_credentials w) = Return (PStr key) /\
    exists search_engine_id,
      os_getenv w "GOOGLE_CSE_ID" = Some search_engine_id /\
      search_engine_id <> "".
Proof.
  intros [H|[H|H]]; list_needs_configuration H.
Qed.

(** X9: a search that succeeds implies a healthy report.  Whenever one of
    the search tools returns a list of results, the health check in the
    same world returns the status "healthy" with credentials_available
    and search_engine_id_set both true. *)
Theorem search_success_implies_healthy (w : World) (query : string)
    (num_results : Z) (entries : list pyval) :
  result (google_search w query num_results) = Return (PList entries) \/
  result (google_search_web w query num_results) = Return (PList entries) \/
  result (google_search_images w query num_results) = Return (PList entries) ->
  exists h,
    result (get_search_health w) = Return (PDict h) /\
    h !! "status" = Some (PStr "healthy") /\
    h !! "credentials_available" = Some (PBool true) /\
    h !! "search_engine_id_set" = Some (PBool true).
Proof.
  intros (key & Hcred & sid & Hid & Hne%truthy_PStr)
    %list_needs_key_and_identifier.
  pose proof (get_google_credentials_range _ _ Hcred)
    as [[=]|[(? & [= <-] & Hkey%truthy_PStr)|(? & [=])]].
  eexists. split; [|split; [|split]].
  - rewrite get_search_health_result, Hcred, Hid. cbn [py_opt_str].
    rewrite Hkey, Hne. reflexivity.
  - reflexivity.
  - reflexivity.
  - reflexivity.
Qed.

Lemma search_success_implies_healthy_witness :
  exists h,
    result (get_search_health Examples.key_and_cse) = Return (PDict h) /\
    h !! "status" = Some (PStr "healthy") /\
    h !! "credentials_available" = Some (PBool true) /\
    h !! "search_engine_id_set" = Some (PBool true).
Proof.
  apply (search_success_implies_healthy Examples.key_and_cse "rocq" 10
           (spec_search_result "Google Custom Search"
              <$> [Examples.item1; Examples.item2])).
  left. reflexivity.
Defined.

(** X10: the converse fails by design of the resolution order.  A
    service-account file that loads takes precedence over a configured
    API key and identifier: the health check then reports "healthy" with
    both flags true, while every search tool returns the "not yet
    implemented" error and issues no remote call. *)
Theorem service_account_shadows_api_key (w : World) (query : string)
    (num_results : Z) (c : Credentials) (key search_engine_id : string) :
  service_account_available w c ->
  api_key_available w key ->
  os_getenv w "GOOGLE_CSE_ID" = Some search_engine_id ->
  search_engine_id <> "" ->
  (exists h,
     result (get_search_health w) = Return (PDict h) /\
     h !! "status" = Some (PStr "healthy") /\
     h !! "credentials_available" = Some (PBool true) /\
     h !! "search_engine_id_set" = Some (PBool true)) /\
  result (google_search w query num_results)
    = Return (error_dict "Service account authentication not yet implemented for search API") /\
  result (google_search_web w query num_results)
    = Return (error_dict "Service account authentication not yet implemented") /\
  result (google_search_images w query num_results)
    = Return (error_dict "Service account authentication not yet implemented") /\
  remote_calls (trace (google_search w query num_results)) = [] /\
  remote_calls (trace (google_search_web w query num_results)) = [] /\
  remote_calls (trace (google_search_images w query num_results)) = [].
Proof.
  intros Hcred%resolver_service_account _ Hid Hne%truthy_PStr.
  split.
  - eexists. split; [|split; [|split]].
    + rewrite get_search_health_result, Hcred, Hid. cbn [py_opt_str truthy].
      cbn [truthy] in Hne. rewrite Hne. reflexivity.
    + reflexivity.
    + reflexivity.
    + reflexivity.
  - split; [|split; [|split; [|split; [|split]]]];
      with_credentials Hcred; reflexivity.
Qed.

Lemma service_account_shadows_api_key_witness :
  result (google_search Examples.service_account "rocq" 10)
    = Return (error_dict "Service account authentication not yet implemented for search API") /\
  exists h,
    result (get_search_health Examples.service_account) = Return (PDict h) /\
    h !! "status" = Some (PStr "healthy").
Proof.
  destruct (service_account_shadows_api_key Examples.service_account "rocq" 10
              (CredentialsObject 1) "secret" "engine")
    as ((h & Hres & Hst & _) & Hsearch & _).
  - exists "/etc/sa.json". split; [|split]; reflexivity.
  - split; [reflexivity|discriminate].
  - reflexivity.
  - discriminate.
  - split; [exact Hsearch|]. exists h. by split.
Defined.

(** ** Failures of the resolver inside a search tool *)

(** X11: an exception that leaves the resolver is caught by the search
    tools: each of them returns the error value for that exception and
    issues no remote call, where the health check raises. *)
Theorem resolver_failure_is_reported (w : World) (query : string)
    (num_results : Z) (e : exn) :
  result (get_google_credentials w) = Raise e ->
  (result (google_search w query num_results) = Return (spec_error_value e) /\
   result (google_search_web w query num_results)
     = Return (spec_error_value e) /\
   result (google_search_images w query num_results)
     = Return (spec_error_value e)) /\
  (remote_calls (trace (google_search w query num_results)) = [] /\
   remote_calls (trace (google_search_web w query num_results)) = [] /\
   remote_calls (trace (google_search_images w query num_results)) = []) /\
  result (get_search_health w) = Raise e.
Proof.
  intros Hcred. split; [|split].
  - split; [|split]; with_credentials Hcred; apply search_handlers_result.
  - apply calls_without_key. intros key. by rewrite Hcred.
  - by rewrite get_search_health_result, Hcred.
Qed.

Lemma resolver_failure_is_reported_witness :
  result (google_search Examples.discovery_broken "rocq" 10)
    = Return (error_dict "Unexpected error: metadata server unreachable") /\
  result (get_search_health Examples.discovery_broken)
    = Raise (Exn (OtherException "TransportError") "metadata server unreachable").
Proof.
  destruct (resolver_failure_is_reported Examples.discovery_broken "rocq" 10
              (Exn (OtherException "TransportError")
                   "metadata server unreachable") eq_refl)
    as ((H & _) & _ & Hh).
  split; [exact H|exact Hh].
Defined.

(** ** What is logged *)

Lemma api_key_or_default_trace (w : World) :
  trace (api_key_or_default w) = [LogError no_credentials_message] /\
    result (api_key_or_default w) = Return PNone \/
  trace (api_key_or_default w) = [] /\
    result (api_key_or_default w) <> Return PNone.
Proof.
  unfold api_key_or_default. cbv zeta.
  destruct (os_getenv w "GOOGLE_API_KEY") as [key|]; cbn [py_opt_str truthy].
  - destruct (negb (String.eqb key "")); [right; by split|].
    destruct (auth_default w) as [[c project]|e]; cbn; [right; by split|].
    destruct (is_DefaultCredentialsError e); [left|right]; by split.
  - destruct (auth_default w) as [[c project]|e]; cbn; [right; by split|].
    destruct (is_DefaultCredentialsError e); [left|right]; by split.
Qed.

(** X12: the resolver logs the "No Google credentials found" error
    exactly when it returns [None], and logs no other error; it logs a
    warning exactly when the service-account file exists and fails to
    load, and that warning names the path and the exception. *)
Theorem resolver_log (w : World) :
  (LogError no_credentials_message ∈ trace (get_google_credentials w) <->
   result (get_google_credentials w) = Return PNone) /\
  (forall msg,
     LogError msg ∈ trace (get_google_credentials w) ->
     msg = no_credentials_message) /\
  (forall msg,
     LogWarning msg ∈ trace (get_google_credentials w) <->
     exists path e,
       os_getenv w "GOOGLE_APPLICATION_CREDENTIALS" = Some path /\
       os_path_exists w path = true /\
       from_service_account_file w path = Raise e /\
       msg = load_warning path e).
Proof.
  assert (Herr : forall msg,
            LogError msg ∈ trace (api_key_or_default w) ->
            msg = no_credentials_message /\
            result (api_key_or_default w) = Return PNone).
  { intros msg. destruct (api_key_or_default_trace w) as [[-> Hr]|[-> _]].
    - intros [= ->]%list_elem_of_singleton. by split.
    - by intros ?%elem_of_nil. }
  assert (Hnone : result (api_key_or_default w) = Return PNone ->
                  LogError no_credentials_message
                    ∈ trace (api_key_or_default w)).
  { destruct (api_key_or_default_trace w) as [[-> _]|[_ Hr]]; [|done].
    intros _. by apply list_elem_of_singleton. }
  assert (Hwarn : forall msg, LogWarning msg ∉ trace (api_key_or_default w)).
  { intros msg. destruct (api_key_or_default_trace w) as [[-> _]|[-> _]].
    - by intros [=]%list_elem_of_singleton.
    - by intros ?%elem_of_nil. }
  unfold get_google_credentials.
  destruct (os_getenv w "GOOGLE_APPLICATION_CREDENTIALS") as [path|] eqn:Hpath.
  2: { split; [split; [by intros [_ H]%Herr|exact Hnone]|].
       split; [by intros msg [H _]%Herr|].
       intros msg. split; [by intros ?%Hwarn|]. by intros (? & ? & [=] & _). }
  destruct (truthy (PStr path) && os_path_exists w path) eqn:Hg.
  2: { split; [split; [by intros [_ H]%Herr|exact Hnone]|].
       split; [by intros msg [H _]%Herr|].
       intros msg. split; [by intros ?%Hwarn|].
       intros (path' & e & [= <-] & Hex & _).
       rewrite (os_path_exists_truthy _ _ Hex), Hex in Hg. discriminate. }
  apply andb_true_iff in Hg as [_ Hex].
  destruct (from_service_account_file w path) as [c|e] eqn:Hload.
  - split; [split; [by intros ?%elem_of_nil|discriminate]|].
    split; [by intros msg ?%elem_of_nil|].
    intros msg. split; [by intros ?%elem_of_nil|].
    intros (path' & e & [= <-] & _ & Hl & _). congruence.
  - rewrite trace_bind, result_bind. cbn [logger_warning emit trace result fst snd].
    change ([LogWarning (load_warning path e)] ++ trace (api_key_or_default w))%list
      with (LogWarning (load_warning path e) :: trace (api_key_or_default w)).
    split; [split|split].
    + intros [[=]|[_ H]%Herr]%elem_of_cons. exact H.
    + intros H%Hnone. apply elem_of_cons. by right.
    + intros msg [[=]|[H _]%Herr]%elem_of_cons. exact H.
    + intros msg. split.
      * intros [[= ->]|?%Hwarn]%elem_of_cons; [|done].
        by exists path, e.
      * intros (path' & e' & [= <-] & _ & Hl & ->).
        assert (e' = e) as -> by congruence.
        apply elem_of_cons. by left.
Qed.

Lemma resolver_log_witness :
  trace (get_google_credentials Cases.broken_and_bare)
    = [LogWarning "Failed to load service account from /etc/sa.json: not a service account file";
       LogError no_credentials_message] /\
  result (get_google_credentials Cases.broken_and_bare) = Return PNone /\
  exists path e,
    os_getenv Cases.broken_and_bare "GOOGLE_APPLICATION_CREDENTIALS"
      = Some path /\
    os_path_exists Cases.broken_and_bare path = true /\
    from_service_account_file Cases.broken_and_bare path = Raise e /\
    "Failed to load service account from /etc/sa.json: not a service account file"
      = load_warning path e.
Proof.
  split; [reflexivity|].
  destruct (resolver_log Cases.broken_and_bare) as ([Hnone _] & _ & Hwarn).
  split.
  - apply Hnone. apply elem_of_cons. right. apply elem_of_cons. by left.
  - apply Hwarn. apply elem_of_cons. by left.
Defined.

Lemma resolver_error_log (w : World) (msg : string) :
  LogError msg ∈ trace (get_google_credentials w) ->
  msg = no_credentials_message.
Proof.
  assert (Herr : LogError msg ∈ trace (api_key_or_default w) ->
                 msg = no_credentials_message).
  { destruct (api_key_or_default_trace w) as [[-> _]|[-> _]].
    - by intros [= ->]%list_elem_of_singleton.
    - by intros ?%elem_of_nil. }
  unfold get_google_credentials.
  destruct (os_getenv w "GOOGLE_APPLICATION_CREDENTIALS") as [path|];
    [|exact Herr].
  destruct (truthy (PStr path) && os_path_exists w path); [|exact Herr].
  destruct (from_service_account_file w path) as [c|e].
  - by intros ?%elem_of_nil.
  - rewrite trace_bind. cbn [logger_warning emit trace result fst snd].
    intros [H|H]%elem_of_app; [|by apply Herr].
    apply list_elem_of_singleton in H. discriminate.
Qed.

Lemma search_handlers_eq (e : exn) :
  search_handlers e
  = ([LogError (error_text e)], Return (error_dict (error_text e))).
Proof.
  unfold search_handlers, error_text. destruct (is_HttpError e); reflexivity.
Qed.

(** The [try] block adds nothing but remote calls to the trace of the
    resolver. *)
Ltac body_trace_tac :=
  rewrite trace_bind;
  destruct (result (get_google_credentials _)) as [c|e];
    [|exists []; split; [reflexivity|constructor]];
  destruct (truthy c); cbn [negb];
    [|exists []; split; [reflexivity|constructor]];
  destruct (isinstance_str c);
    [|exists []; split; [reflexivity|constructor]];
  rewrite trace_bind; cbn [lift trace result fst snd app];
  destruct (build _ _ _ _) as [service|e];
    [|exists []; split; [reflexivity|constructor]];
  destruct (os_getenv _ "GOOGLE_CSE_ID") as [search_engine_id|];
    [|exists []; split; [reflexivity|constructor]];
  destruct (truthy (PStr search_engine_id));
    [|exists []; split; [reflexivity|constructor]];
  unfold service_list_execute; rewrite !trace_bind;
  cbn [emit lift trace result fst snd app];
  match goal with
  | |- exists calls, (_ ++ ?ev :: ?post)%list = _ /\ _ =>
      exists [ev]; split;
      [ do 2 f_equal;
        match goal with
        | |- match ?o with _ => _ end = _ => destruct o; [|reflexivity]
        end;
        match goal with |- trace ?m = [] => change (silent m) end;
        auto 20 with silent
      | constructor; [by eexists _, _|constructor] ]
  end.

Lemma google_search_body_trace (w : World) (query : string) (num_results : Z) :
  exists calls,
    trace (google_search_body w query num_results)
      = (trace (get_google_credentials w) ++ calls)%list /\
    Forall is_call calls.
Proof. unfold google_search_body. body_trace_tac. Qed.

Lemma google_search_web_body_trace (w : World) (query : string)
    (num_results : Z) :
  exists calls,
    trace (google_search_web_body w query num_results)
      = (trace (get_google_credentials w) ++ calls)%list /\
    Forall is_call calls.
Proof. unfold google_search_web_body. body_trace_tac. Qed.

Lemma google_search_images_body_trace (w : World) (query : string)
    (num_results : Z) :
  exists calls,
    trace (google_search_images_body w query num_results)
      = (trace (get_google_credentials w) ++ calls)%list /\
    Forall is_call calls.
Proof. unfold google_search_images_body. body_trace_tac. Qed.

Lemma handled_log (w : World) (body : M pyval) :
  (exists calls,
     trace body = (trace (get_google_credentials w) ++ calls)%list /\
     Forall is_call calls) ->
  (forall msg,
     LogError msg ∈ trace (try_except body search_handlers) ->
     msg = no_credentials_message \/
     result (try_except body search_handlers) = Return (error_dict msg)) /\
  (forall e,
     result body = Raise e ->
     LogError (error_text e) ∈ trace (try_except body search_handlers) /\
     result (try_except body search_handlers)
       = Return (error_dict (error_text e))) /\
  (forall v,
     result body = Return v -> try_except body search_handlers = body).
Proof.
  intros (calls & Htrace & Hcalls).
  rewrite trace_try_except, result_try_except, Htrace.
  split; [|split].
  - intros msg [[Hres|Hcall]%elem_of_app|Hhandled]%elem_of_app.
    + left. by apply (resolver_error_log w).
    + apply (proj1 (Forall_forall _ _) Hcalls) in Hcall
        as (service & request & [=]).
    + right. destruct (result body) as [v|e]; [by apply elem_of_nil in Hhandled|].
      rewrite search_handlers_eq in *. cbn [trace result fst snd] in *.
      apply list_elem_of_singleton in Hhandled as [= ->]. reflexivity.
  - intros e ->. rewrite search_handlers_eq. cbn [trace result fst snd].
    split; [|reflexivity]. apply elem_of_app. right.
    by apply list_elem_of_singleton.
  - intros v Hv. destruct body as [t [v'|e]]; [reflexivity|discriminate].
Qed.

(** X13: what a search tool logs is what it returns.  An exception of
    the [try] block is logged as an error and returned with the same
    text; every error in the log of a tool is either that text or the
    resolver's "No Google credentials found" line; a [try] block that
    returns adds nothing to the log. *)
Theorem tool_log_matches_result (w : World) (query : string)
    (num_results : Z) :
  ((forall msg,
      LogError msg ∈ trace (google_search w query num_results) ->
      msg = no_credentials_message \/
      result (google_search w query num_results) = Return (error_dict msg)) /\
   (forall e,
      result (google_search_body w query num_results) = Raise e ->
      LogError (error_text e) ∈ trace (google_search w query num_results) /\
      result (google_search w query num_results)
        = Return (error_dict (error_text e))) /\
   (forall v,
      result (google_search_body w query num_results) = Return v ->
      google_search w query num_results
        = google_search_body w query num_results)) /\
  ((forall msg,
      LogError msg ∈ trace (google_search_web w query num_results) ->
      msg = no_credentials_message \/
      result (google_search_web w query num_results)
        = Return (error_dict msg)) /\
   (forall e,
      result (google_search_web_body w query num_results) = Raise e ->
      LogError (error_text e) ∈ trace (google_search_web w query num_results) /\
      result (google_search_web w query num_results)
        = Return (error_dict (error_text e))) /\
   (forall v,
      result (google_search_web_body w query num_results) = Return v ->
      google_search_web w query num_results
        = google_search_web_body w query num_results)) /\
  ((forall msg,
      LogError msg ∈ trace (google_search_images w query num_results) ->
      msg = no_credentials_message \/
      result (google_search_images w query num_results)
        = Return (error_dict msg)) /\
   (forall e,
      result (google_search_images_body w query num_results) = Raise e ->
      LogError (error_text e)
        ∈ trace (google_search_images w query num_results) /\
      result (google_search_images w query num_results)
        = Return (error_dict (error_text e))) /\
   (forall v,
      result (google_search_images_body w query num_results) = Return v ->
      google_search_images w query num_results
        = google_search_images_body w query num_results)).
Proof.
  split; [|split].
  - apply (handled_log w), google_search_body_trace.
  - apply (handled_log w), google_search_web_body_trace.
  - apply (handled_log w), google_search_images_body_trace.
Qed.

Lemma tool_log_matches_result_witness :
  LogError "Google API error: <HttpError 403 Forbidden>"
    ∈ trace (google_search Examples.refused "rocq" 10) /\
  result (google_search Examples.refused "rocq" 10)
    = Return (error_dict "Google API error: <HttpError 403 Forbidden>").
Proof.
  destruct (tool_log_matches_result Examples.refused "rocq" 10)
    as ((_ & H & _) & _).
  apply (H (Exn HttpError "<HttpError 403 Forbidden>")). reflexivity.
Defined.

(** X14: an answer of the wrong type is reported, not raised.  When the
    endpoint answers with something that is not a JSON object, the tool
    returns "Unexpected error: '<type>' object has no attribute 'get'";
    when the [items] member is present but neither a list, an object nor
    a string ([null], a number, a boolean), it returns "Unexpected error:
    '<type>' object is not iterable". *)
Theorem ill_typed_answer_is_reported (w : World) (query : string)
    (num_results : Z) (key search_engine_id : string) (service : Service)
    (response : pyval) :
  result (get_google_credentials w) = Return (PStr key) ->
  build w "customsearch" "v1" (PStr key) = Return service ->
  os_getenv w "GOOGLE_CSE_ID" = Some search_engine_id ->
  search_engine_id <> "" ->
  list_execute w service
    {| q := query; cx := search_engine_id;
       num := Z.min num_results 10; searchType := None |} = Return response ->
  list_execute w service
    {| q := query; cx := search_engine_id;
       num := Z.min num_results 5; searchType := Some "web" |}
    = Return response ->
  list_execute w service
    {| q := query; cx := search_engine_id;
       num := Z.min num_results 5; searchType := Some "image" |}
    = Return response ->
  (is_dict response = false ->
   let reported :=
     Return (error_dict ("Unexpected error: '" +:+ type_name response
                         +:+ "' object has no attribute 'get'")) in
   result (google_search w query num_results) = reported /\
   result (google_search_web w query num_results) = reported /\
   result (google_search_images w query num_results) = reported) /\
  (forall d items,
     response = PDict d ->
     d !! "items" = Some items ->
     iterable items = false ->
     let reported :=
       Return (error_dict ("Unexpected error: '" +:+ type_name items
                           +:+ "' object is not iterable")) in
     result (google_search w query num_results) = reported /\
     result (google_search_web w query num_results) = reported /\
     result (google_search_images w query num_results) = reported).
Proof.
  intros Hcred Hbuild Hid Hne%truthy_PStr Hgeneral Hweb Himage. split.
  - intros Hdict reported. subst reported.
    split; [|split];
      [ after_answer Hcred Hbuild Hid Hne Hgeneral
      | after_answer Hcred Hbuild Hid Hne Hweb
      | after_answer Hcred Hbuild Hid Hne Himage ];
      destruct response; try discriminate Hdict;
      cbn [py_get raise result snd]; apply search_handlers_result.
  - intros d items -> Hitems Hiter reported. subst reported.
    split; [|split];
      [ after_answer Hcred Hbuild Hid Hne Hgeneral
      | after_answer Hcred Hbuild Hid Hne Hweb
      | after_answer Hcred Hbuild Hid Hne Himage ];
      cbn [py_get ret result snd]; rewrite Hitems, bind_ret_l, result_bind;
      destruct items; try discriminate Hiter;
      cbn [py_iter raise result snd]; apply search_handlers_result.
Qed.

Lemma ill_typed_answer_is_reported_witness :
  result (google_search Examples.null_answer "rocq" 5)
    = Return (error_dict "Unexpected error: 'NoneType' object is not iterable") /\
  result (google_search_images Examples.null_answer "rocq" 5)
    = Return (error_dict "Unexpected error: 'NoneType' object is not iterable").
Proof.
  destruct (ill_typed_answer_is_reported Examples.null_answer "rocq" 5
              "secret" "engine" (ServiceObject 0)
              (py_dict [("items", PNone)]) eq_refl eq_refl eq_refl)
    as [_ H]; [discriminate|reflexivity|reflexivity|reflexivity|].
  destruct (H (list_to_map [("items", PNone)]) PNone eq_refl eq_refl eq_refl)
    as (Hg & _ & Hi).
  split; [exact Hg|exact Hi].
Defined.

(** ** The client the tools construct *)

Ltac same_client w Hbld :=
  let Hcred := fresh "Hcred" in
  let Hkey := fresh "Hkey" in
  change (get_google_credentials (with_client _ _ _))
    with (get_google_credentials w);
  destruct (get_google_credentials _) as [t [c|e]] eqn:Hcred;
    [|reflexivity];
  destruct c as [| | | |key| | |]; try reflexivity;
  assert (Hkey : api_key_available w key)
    by (apply resolved_key_is_env_key; by rewrite Hcred);
  destruct Hkey as [Hkey _];
  cbn [bind try_except truthy negb isinstance_str lift build with_client];
  rewrite (Hbld _ Hkey); reflexivity.

(** X15: the only client a search tool constructs is the customsearch v1
    client for the value of GOOGLE_API_KEY.  Replacing [build] by a
    constructor that agrees with it on these arguments changes neither the
    outcome nor the trace of any tool. *)
Theorem only_the_key_client_is_built (w : World)
    (bld : string -> string -> pyval -> outcome Service)
    (query : string) (num_results : Z) :
  (forall key,
     os_getenv w "GOOGLE_API_KEY" = Some key ->
     bld "customsearch" "v1" (PStr key)
     = build w "customsearch" "v1" (PStr key)) ->
  google_search (with_client w bld (list_execute w)) query num_results
    = google_search w query num_results /\
  google_search_web (with_client w bld (list_execute w)) query num_results
    = google_search_web w query num_results /\
  google_search_images (with_client w bld (list_execute w)) query num_results
    = google_search_images w query num_results.
Proof.
  intros Hbld.
  split; [|split];
    unfold google_search, google_search_body,
           google_search_web, google_search_web_body,
           google_search_images, google_search_images_body;
    same_client w Hbld.
Qed.

Lemma only_the_key_client_is_built_witness :
  google_search
    (with_client Examples.key_and_cse Cases.picky_build Examples.two_items)
    "rocq" 10
  = google_search Examples.key_and_cse "rocq" 10.
Proof.
  apply (only_the_key_client_is_built Examples.key_and_cse Cases.picky_build
           "rocq" 10).
  intros key Hkey. reflexivity.
Defined.

(** ** Unhealthy reports and the "no credentials" error *)

Lemma health_status (w : World) (h : gmap string pyval) (status : string) :
  result (get_search_health w) = Return (PDict h) ->
  h !! "status" = Some (PStr status) ->
  exists credentials,
    result (get_google_credentials w) = Return credentials /\
    status = if truthy credentials then "healthy" else "unhealthy".
Proof.
  rewrite get_search_health_result.
  destruct (result (get_google_credentials w)) as [credentials|e];
    [|discriminate].
  intros Hh%Return_inj Hstatus. exists credentials. split; [reflexivity|].
  apply (f_equal (fun v => match v with
                           | PDict d => d !! "status"
                           | _ => None
                           end)) in Hh.
  cbv beta iota in Hh. rewrite Hstatus in Hh.
  change (Some (PStr (if truthy credentials then "healthy" else "unhealthy"))
          = Some (PStr status)) in Hh.
  congruence.
Qed.

Lemma error_dict_not_list' (msg : string) (entries : list pyval) :
  PList entries <> error_dict msg.
Proof. unfold error_dict, py_dict. discriminate. Qed.

(** A [try] block that returns the "no credentials" error got [None]
    from the resolver. *)
Ltac no_credentials_inv H :=
  let c := fresh "c" in
  let Hc := fresh "Hc" in
  let Ht := fresh "Ht" in
  apply result_bind_Return_inv in H as (c & Hc & H);
  destruct (truthy c) eqn:Ht; cbn [negb] in H;
  [ exfalso;
    destruct (isinstance_str c);
    [ apply result_bind_Return_inv in H as (? & _ & H);
      destruct (os_getenv _ "GOOGLE_CSE_ID") as [search_engine_id|];
      [ destruct (truthy (PStr search_engine_id));
        [ apply result_bind_Return_inv in H as (? & _ & H);
          apply result_bind_Return_inv in H as (? & _ & H);
          apply result_bind_Return_inv in H as (? & _ & H);
          apply result_bind_Return_inv in H as (? & _ & H);
          apply Return_inj in H; by apply error_dict_not_list' in H
        | apply Return_inj, error_dict_inj in H; discriminate H ]
      | apply Return_inj, error_dict_inj in H; discriminate H ]
    | apply Return_inj, error_dict_inj in H; discriminate H ]
  | destruct (get_google_credentials_range _ _ Hc)
      as [->|[(key & -> & Hkey%truthy_PStr)|(? & ->)]];
    [ exact Hc | congruence | discriminate Ht ] ].

Lemma no_credentials_error_inv (w : World) (query : string) (num_results : Z) :
  result (google_search w query num_results)
    = Return (error_dict "No Google credentials available") \/
  result (google_search_web w query num_results)
    = Return (error_dict "No Google credentials available") \/
  result (google_search_images w query num_results)
    = Return (error_dict "No Google credentials available") ->
  result (get_google_credentials w) = Return PNone.
Proof.
  assert (Hhandled : forall e,
            result (search_handlers e)
            <> Return (error_dict "No Google credentials available")).
  { intros e. rewrite search_handlers_result. unfold spec_error_value.
    intros H%Return_inj%error_dict_inj.
    destruct (is_HttpError e); discriminate H. }
  intros [H|[H|H]]; revert H;
    unfold google_search, google_search_web, google_search_images;
    rewrite result_try_except;
    match goal with
    | |- match ?r with _ => _ end = _ -> _ =>
        destruct r as [v|e] eqn:Hbody; [|by intros ?%Hhandled]
    end;
    intros [= ->].
  - unfold google_search_body in Hbody. no_credentials_inv Hbody.
  - unfold google_search_web_body in Hbody. no_credentials_inv Hbody.
  - unfold google_search_images_body in Hbody. no_credentials_inv Hbody.
Qed.

(** X16: the health check reports "unhealthy" exactly when the search
    tools answer "No Google credentials available": each of the four
    holds exactly when the resolver returns [None], so the three tools
    give that answer together or not at all. *)
Theorem unhealthy_iff_no_credentials (w : World) (query : string)
    (num_results : Z) :
  ((exists h,
      result (get_search_health w) = Return (PDict h) /\
      h !! "status" = Some (PStr "unhealthy")) <->
   result (get_google_credentials w) = Return PNone) /\
  (result (google_search w query num_results)
     = Return (error_dict "No Google credentials available") <->
   result (get_google_credentials w) = Return PNone) /\
  (result (google_search_web w query num_results)
     = Return (error_dict "No Google credentials available") <->
   result (get_google_credentials w) = Return PNone) /\
  (result (google_search_images w query num_results)
     = Return (error_dict "No Google credentials available") <->
   result (get_google_credentials w) = Return PNone) /\
  ((exists h,
      result (get_search_health w) = Return (PDict h) /\
      h !! "status" = Some (PStr "unhealthy")) <->
   result (google_search w query num_results)
     = Return (error_dict "No Google credentials available")) /\
  (result (google_search w query num_results)
     = Return (error_dict "No Google credentials available") <->
   result (google_search_web w query num_results)
     = Return (error_dict "No Google credentials available")) /\
  (result (google_search w query num_results)
     = Return (error_dict "No Google credentials available") <->
   result (google_search_images w query num_results)
     = Return (error_dict "No Google credentials available")).
Proof.
  assert (Htools : result (get_google_credentials w) = Return PNone ->
            result (google_search w query num_results)
              = Return (error_dict "No Google credentials available") /\
            result (google_search_web w query num_results)
              = Return (error_dict "No Google credentials available") /\
            result (google_search_images w query num_results)
              = Return (error_dict "No Google credentials available")).
  { intros Hnone. split; [|split]; with_credentials Hnone; reflexivity. }
  pose proof (no_credentials_error_inv w query num_results) as Hinv.
  assert (Hhealth :
            (exists h,
               result (get_search_health w) = Return (PDict h) /\
               h !! "status" = Some (PStr "unhealthy")) <->
            result (get_google_credentials w) = Return PNone).
  { split.
    - intros (h & Hres & Hstatus).
      destruct (health_status _ _ _ Hres Hstatus) as (c & Hcred & Hc).
      destruct (truthy c) eqn:Ht; [discriminate Hc|].
      destruct (get_google_credentials_range _ _ Hcred)
        as [->|[(key & -> & Hkey%truthy_PStr)|(? & ->)]];
        [exact Hcred|congruence|discriminate Ht].
    - intros Hc. eexists. split.
      + rewrite get_search_health_result, Hc. reflexivity.
      + reflexivity. }
  assert (Hgeneral :
            result (google_search w query num_results)
              = Return (error_dict "No Google credentials available") <->
            result (get_google_credentials w) = Return PNone).
  { split; [intros H; apply Hinv; by left|intros H; by apply Htools]. }
  assert (Hweb :
            result (google_search_web w query num_results)
              = Return (error_dict "No Google credentials available") <->
            result (get_google_credentials w) = Return PNone).
  { split; [intros H; apply Hinv; right; by left|intros H; by apply Htools]. }
  assert (Himages :
            result (google_search_images w query num_results)
              = Return (error_dict "No Google credentials available") <->
            result (get_google_credentials w) = Return PNone).
  { split; [intros H; apply Hinv; right; by right|intros H; by apply Htools]. }
  split; [exact Hhealth|]. split; [exact Hgeneral|].
  split; [exact Hweb|]. split; [exact Himages|].
  split; [by rewrite Hhealth, Hgeneral|].
  split; [by rewrite Hgeneral, Hweb|by rewrite Hgeneral, Himages].
Qed.

Lemma unhealthy_iff_no_credentials_witness :
  result (get_google_credentials Examples.bare) = Return PNone /\
  result (google_search Examples.bare "rocq" 10)
    = Return (error_dict "No Google credentials available") /\
  (exists h,
     result (get_search_health Examples.bare) = Return (PDict h) /\
     h !! "status" = Some (PStr "unhealthy")) /\
  ~ (exists h,
       result (get_search_health Examples.key_only) = Return (PDict h) /\
       h !! "status" = Some (PStr "unhealthy")).
Proof.
  destruct (unhealthy_iff_no_credentials Examples.bare "rocq" 10)
    as (Hhealth & Hgeneral & _).
  split; [reflexivity|]. split; [|split].
  - apply Hgeneral. reflexivity.
  - apply Hhealth. reflexivity.
  - intros Hunhealthy.
    destruct (unhealthy_iff_no_credentials Examples.key_only "rocq" 10)
      as (Hkey & _).
    apply Hkey in Hunhealthy. discriminate Hunhealthy.
Defined.
